(** * cluster-api-provider-gcp: the controller manager's entry point

    A shallow embedding of [main.go]: the package-level flag variables,
    [initFlags], and [main].  Calls into controller-runtime, client-go and
    the provider's own packages are recorded, in program order, in a trace
    together with their arguments and results; the result of each fallible
    call is supplied by an environment.  [os.Exit] ends the run with its
    status; returning from [main] ends it with status 0.  The trace is the
    sequence of [main]'s own goroutine; the profiler goroutine's sequence
    is kept with the [go] statement that starts it.  A run begins with a
    command line [pflag.Parse] has accepted: on any other, [pflag.Parse]
    ends the process itself, before the first statement modelled here. *)

From Stdlib Require Import ZArith List String Bool Lia Sorted.
Import ListNotations.
Open Scope string_scope.
Open Scope Z_scope.
Open Scope list_scope.

Set Implicit Arguments.

(** ** Go base types *)

(** Go's [error] interface value is [option Error]: [None] is [nil]. *)
Definition Error := string.

(** [time.Duration] is an int64 count of nanoseconds. *)
Module time.
Definition Duration := Z.
Definition Nanosecond : Duration := 1.
Definition Second : Duration := 1000000000 * Nanosecond.
Definition Minute : Duration := 60 * Second.
End time.

(** ** The package-level flag variables (main.go, lines 64-80) *)

Record Globals := {
  enableLeaderElection : bool;
  metricsAddr : string;
  leaderElectionNamespace : string;
  watchNamespace : string;
  profilerAddress : string;
  healthAddr : string;
  watchFilterValue : string;
  gcpClusterConcurrency : Z;
  gcpMachineConcurrency : Z;
  webhookPort : Z;
  reconcileTimeout : time.Duration;
  syncPeriod : time.Duration;
  leaderElectionLeaseDuration : time.Duration;
  leaderElectionRenewDeadline : time.Duration;
  leaderElectionRetryPeriod : time.Duration
}.

(** The variables before [initFlags] runs: Go zero values. *)
Definition zeroGlobals : Globals := {|
  enableLeaderElection := false;
  metricsAddr := EmptyString;
  leaderElectionNamespace := EmptyString;
  watchNamespace := EmptyString;
  profilerAddress := EmptyString;
  healthAddr := EmptyString;
  watchFilterValue := EmptyString;
  gcpClusterConcurrency := 0;
  gcpMachineConcurrency := 0;
  webhookPort := 0;
  reconcileTimeout := 0;
  syncPeriod := 0;
  leaderElectionLeaseDuration := 0;
  leaderElectionRenewDeadline := 0;
  leaderElectionRetryPeriod := 0
|}.

(** The address of a flag variable, as in [&metricsAddr]. *)
Inductive Var :=
| p_enableLeaderElection
| p_metricsAddr
| p_leaderElectionNamespace
| p_watchNamespace
| p_profilerAddress
| p_healthAddr
| p_watchFilterValue
| p_gcpClusterConcurrency
| p_gcpMachineConcurrency
| p_webhookPort
| p_reconcileTimeout
| p_syncPeriod
| p_leaderElectionLeaseDuration
| p_leaderElectionRenewDeadline
| p_leaderElectionRetryPeriod.

(** ** pflag: a flag set binding names to variables *)

Module pflag.

Inductive Value :=
| VString (s : string)
| VBool (b : bool)
| VInt (n : Z)
| VDuration (d : time.Duration).

(** A registered flag.  The usage text is help output only and is left out. *)
Record Flag := {
  Name : string;
  Target : Var;
  DefValue : Value
}.

Definition FlagSet := list Flag.

(** The empty set [pflag.CommandLine] starts as. *)
Definition CommandLine : FlagSet := [].

(** Store through a variable's address.  A value of the wrong kind is not
    stored: pflag converts the text of an occurrence with the flag's own
    kind, so an accepted occurrence always has the right one. *)
Definition store (p : Var) (v : Value) (g : Globals) : Globals :=
  let '(Build_Globals le ma len wn pa ha wf cc mc wp rt sp ld rd rp) := g in
  match p, v with
  | p_enableLeaderElection, VBool x =>
      Build_Globals x ma len wn pa ha wf cc mc wp rt sp ld rd rp
  | p_metricsAddr, VString x =>
      Build_Globals le x len wn pa ha wf cc mc wp rt sp ld rd rp
  | p_leaderElectionNamespace, VString x =>
      Build_Globals le ma x wn pa ha wf cc mc wp rt sp ld rd rp
  | p_watchNamespace, VString x =>
      Build_Globals le ma len x pa ha wf cc mc wp rt sp ld rd rp
  | p_profilerAddress, VString x =>
      Build_Globals le ma len wn x ha wf cc mc wp rt sp ld rd rp
  | p_healthAddr, VString x =>
      Build_Globals le ma len wn pa x wf cc mc wp rt sp ld rd rp
  | p_watchFilterValue, VString x =>
      Build_Globals le ma len wn pa ha x cc mc wp rt sp ld rd rp
  | p_gcpClusterConcurrency, VInt x =>
      Build_Globals le ma len wn pa ha wf x mc wp rt sp ld rd rp
  | p_gcpMachineConcurrency, VInt x =>
      Build_Globals le ma len wn pa ha wf cc x wp rt sp ld rd rp
  | p_webhookPort, VInt x =>
      Build_Globals le ma len wn pa ha wf cc mc x rt sp ld rd rp
  | p_reconcileTimeout, VDuration x =>
      Build_Globals le ma len wn pa ha wf cc mc wp x sp ld rd rp
  | p_syncPeriod, VDuration x =>
      Build_Globals le ma len wn pa ha wf cc mc wp rt x ld rd rp
  | p_leaderElectionLeaseDuration, VDuration x =>
      Build_Globals le ma len wn pa ha wf cc mc wp rt sp x rd rp
  | p_leaderElectionRenewDeadline, VDuration x =>
      Build_Globals le ma len wn pa ha wf cc mc wp rt sp ld x rp
  | p_leaderElectionRetryPeriod, VDuration x =>
      Build_Globals le ma len wn pa ha wf cc mc wp rt sp ld rd x
  | _, _ => g
  end.

(** The state [initFlags] and [Parse] work on: the flag set and the
    variables its flags point to. *)
Definition State := (FlagSet * Globals)%type.

(** [fs.XxxVar(p, name, value, usage)]: set the variable to the default and
    add the flag to the set. *)
Definition VarP (p : Var) (name : string) (value : Value) (s : State) : State :=
  (fst s ++ [{| Name := name; Target := p; DefValue := value |}],
   store p value (snd s)).

Definition StringVar (p : Var) (name value : string) : State -> State :=
  VarP p name (VString value).
Definition BoolVar (p : Var) (name : string) (value : bool) : State -> State :=
  VarP p name (VBool value).
Definition IntVar (p : Var) (name : string) (value : Z) : State -> State :=
  VarP p name (VInt value).
Definition DurationVar (p : Var) (name : string) (value : time.Duration)
  : State -> State :=
  VarP p name (VDuration value).

Fixpoint Lookup (fs : FlagSet) (name : string) : option Flag :=
  match fs with
  | [] => None
  | f :: fs' => if String.eqb (Name f) name then Some f else Lookup fs' name
  end.

(** The command line after pflag has split and converted it: the flag
    occurrences in order, each a name and its converted value. *)
Definition Args := list (string * Value).

(** [Parse], on an accepted command line: every occurrence of a flag of the
    set is stored through the flag's variable, later occurrences overriding
    earlier ones.  Names the set does not hold (the go flags added by
    [AddGoFlagSet]) touch none of the variables.  A command line with an
    unknown name or a value that does not convert is not accepted:
    [pflag.Parse] exits there and [main] goes no further. *)
Fixpoint Parse (args : Args) (s : State) : State :=
  match args with
  | [] => s
  | (name, v) :: rest =>
      match Lookup (fst s) name with
      | Some f => Parse rest (fst s, store (Target f) v (snd s))
      | None => Parse rest s
      end
  end.

End pflag.

(** ** The libraries' data, as far as [main] builds or passes it *)

(** [logr.Logger]: the chain of names given with [WithName]. *)
Definition Logger := list string.
Definition WithName (l : Logger) (name : string) : Logger := l ++ [name].

(** [runtime.Scheme]: the API groups added to it. *)
Module runtime.
Definition Scheme := list string.
Definition NewScheme : Scheme := [].
End runtime.

(** [rest.Config], what [GetConfigOrDie] loads. *)
Definition RestConfig := string.

(** [context.Context]: the context [SetupSignalHandler] hands out, told apart
    by the number of handlers set up before it. *)
Inductive Context :=
| SignalContext (serial : nat).

(** client-go's tools/record. *)
Module cgrecord.
(** Only [BurstSize] is set by [main]; the other fields keep their zero
    value. *)
Record CorrelatorOptions := {
  BurstSize : Z
}.
Record EventBroadcaster := {
  Serial : nat;
  Correlator : CorrelatorOptions
}.
End cgrecord.

(** controller-runtime's manager; [ctrl.Options] and [ctrl.Manager] are
    aliases of these.  A [*time.Duration] is an [option]: [None] is [nil]. *)
Module manager.
Record Options := {
  Scheme : runtime.Scheme;
  MetricsBindAddress : string;
  LeaderElection : bool;
  LeaderElectionID : string;
  LeaderElectionNamespace : string;
  LeaseDuration : option time.Duration;
  RenewDeadline : option time.Duration;
  RetryPeriod : option time.Duration;
  SyncPeriod : option time.Duration;
  Namespace : string;
  Port : Z;
  HealthProbeBindAddress : string;
  EventBroadcaster : cgrecord.EventBroadcaster
}.
Record controllerManager := {
  Serial : nat;
  Opts : Options
}.
(** The interface value: [None] is the nil manager returned with an error. *)
Definition Manager := option controllerManager.
Inductive Client :=
| GetClient (mgr : Manager).
Inductive EventRecorder :=
| GetEventRecorderFor (mgr : Manager) (name : string).
End manager.

Module controller.
Record Options := {
  MaxConcurrentReconciles : Z
}.
End controller.

(** The provider's reconcilers: [GCPMachineReconciler] and
    [GCPClusterReconciler] are built with the same four fields. *)
Module controllers.
Inductive Kind :=
| GCPMachineReconciler
| GCPClusterReconciler.
Record Reconciler := {
  Type_ : Kind;
  Client : manager.Client;
  Log : Logger;
  ReconcileTimeout : time.Duration;
  WatchFilterValue : string
}.
End controllers.

(** The API types whose webhooks [main] sets up, each from its zero value. *)
Module infrav1alpha4.
Inductive Object :=
| GCPMachineTemplate
| GCPMachine.
End infrav1alpha4.

Module healthz.
Definition Request := string.
Definition Checker := Request -> option Error.
(** Modelled from the spec: controller-runtime's [healthz.Ping] is not in
    this repository; the health endpoints are ping-style checks that always
    return success and do not probe leadership. *)
Definition Ping : Checker := fun _ => None.
End healthz.

Module reconciler.
(** Modelled from the spec: [util/reconciler] is not among the sources;
    the reconcile timeout's default is 90 minutes. *)
Definition DefaultLoopTimeout : time.Duration := 90 * time.Minute.
End reconciler.

(** ** Package state of [main] (lines 49-62) *)

Module ctrl.
Definition Log : Logger := [].
End ctrl.

(** [scheme] after [init] has added the four API groups to it. *)
Definition scheme : runtime.Scheme :=
  runtime.NewScheme ++ ["clientgoscheme"; "infrav1alpha3"; "infrav1alpha4"; "clusterv1"].

Definition setupLog : Logger := WithName ctrl.Log "setup".

(** ** Runs: the trace of calls and how the process ends *)

Inductive Event :=
| EvInfo (l : Logger) (msg : string) (keysAndValues : list string)
| EvError (l : Logger) (err : Error) (msg : string) (keysAndValues : list string)
| EvGoListenAndServe (addr : string) (goroutine : list Event)
| EvSetLogger
| EvNewBroadcasterWithCorrelatorOptions
    (o : cgrecord.CorrelatorOptions) (b : cgrecord.EventBroadcaster)
| EvGetConfigOrDie (cfg : option RestConfig)
| EvNewManager (cfg : RestConfig) (o : manager.Options)
    (mgr : manager.Manager) (err : option Error)
| EvInitFromRecorder (r : manager.EventRecorder)
| EvSetupSignalHandler (ctx : Context)
| EvSetupWithManager (r : controllers.Reconciler) (ctx : Context)
    (mgr : manager.Manager) (o : controller.Options) (err : option Error)
| EvSetupWebhookWithManager (obj : infrav1alpha4.Object)
    (mgr : manager.Manager) (err : option Error)
| EvAddReadyzCheck (mgr : manager.Manager) (name : string)
    (check : healthz.Checker) (err : option Error)
| EvAddHealthzCheck (mgr : manager.Manager) (name : string)
    (check : healthz.Checker) (err : option Error)
| EvStart (mgr : manager.Manager) (ctx : Context) (err : option Error).

Definition Trace := list Event.

Inductive Outcome :=
| Exited (status : Z)
| Died.

Inductive Step (A : Type) :=
| Continue (a : A)
| Halt (o : Outcome).
Arguments Halt {A} o.

(** A computation appends to the trace and either goes on with a value or
    ends the process. *)
Definition Run (A : Type) := Trace -> Trace * Step A.

Definition ret {A} (a : A) : Run A := fun t => (t, Continue a).

Definition bind {A B} (m : Run A) (k : A -> Run B) : Run B :=
  fun t =>
    match m t with
    | (t', Continue a) => k a t'
    | (t', Halt o) => (t', Halt o)
    end.

Declare Scope run_scope.
Delimit Scope run_scope with run.
Notation "x <- m ;; k" := (bind m (fun x => k))
  (at level 61, m at next level, right associativity) : run_scope.
Notation "' pat <- m ;; k" := (bind m (fun x => match x with pat => k end))
  (at level 61, pat pattern, m at next level, right associativity) : run_scope.
Notation "m ;; k" := (bind m (fun _ => k))
  (at level 61, right associativity) : run_scope.
Open Scope run_scope.

Definition tell (e : Event) : Run unit := fun t => (t ++ [e], Continue tt).

(** The process as a whole: [main] returning is exit status 0. *)
Definition exec (m : Run unit) : Trace * Outcome :=
  match m [] with
  | (t, Continue _) => (t, Exited 0)
  | (t, Halt o) => (t, o)
  end.

Module os.
Definition Exit (code : Z) : Run unit := fun t => (t, Halt (Exited code)).
End os.

(** How many handlers, broadcasters and managers a trace has made so far. *)
Fixpoint signalHandlers (t : Trace) : nat :=
  match t with
  | [] => 0
  | EvSetupSignalHandler _ :: t' => S (signalHandlers t')
  | _ :: t' => signalHandlers t'
  end.

Fixpoint broadcasters (t : Trace) : nat :=
  match t with
  | [] => 0
  | EvNewBroadcasterWithCorrelatorOptions _ _ :: t' => S (broadcasters t')
  | _ :: t' => broadcasters t'
  end.

Fixpoint managers (t : Trace) : nat :=
  match t with
  | [] => 0
  | EvNewManager _ _ (Some _) _ :: t' => S (managers t')
  | _ :: t' => managers t'
  end.

(** ** The environment: what the calls outside [main] answer *)

Record Env := {
  (** [None]: the configuration cannot be loaded, and [GetConfigOrDie]
      ends the process itself. *)
  GetConfig : option RestConfig;
  NewManagerErr : RestConfig -> manager.Options -> option Error;
  SetupWithManagerErr :
    controllers.Reconciler -> Context -> manager.Manager ->
    controller.Options -> option Error;
  SetupWebhookWithManagerErr :
    infrav1alpha4.Object -> manager.Manager -> option Error;
  AddReadyzCheckErr :
    manager.Manager -> string -> healthz.Checker -> option Error;
  AddHealthzCheckErr :
    manager.Manager -> string -> healthz.Checker -> option Error;
  (** What [mgr.Start] returns once the manager has stopped. *)
  StartErr : manager.Manager -> Context -> option Error;
  (** What [http.ListenAndServe] returns in the profiler goroutine; [None]
      while it is still serving when the process ends. *)
  ListenAndServeErr : string -> option Error;
  (** [version.Get().String()]. *)
  Version : string
}.

(** ** The calls [main] makes *)

Section Calls.

Variable env : Env.

Definition setupLog_Info (msg : string) (keysAndValues : list string) : Run unit :=
  tell (EvInfo setupLog msg keysAndValues).

Definition setupLog_Error (err : Error) (msg : string) (keysAndValues : list string)
  : Run unit :=
  tell (EvError setupLog err msg keysAndValues).

(** The goroutine of lines 93-95,
    [setupLog.Error(http.ListenAndServe(addr, nil), "listen and serve error")]:
    [ListenAndServe] serves until it fails, and once it has returned its
    error is logged. *)
Definition profilerGoroutine (addr : string) : Trace :=
  match ListenAndServeErr env addr with
  | Some err => [EvError setupLog err "listen and serve error" []]
  | None => []
  end.

(** [go func() { ... }()]: the goroutine is started and runs beside
    [main]; the [go] statement is an event of [main]'s sequence and carries
    the goroutine's own. *)
Definition go_ListenAndServe (addr : string) : Run unit :=
  tell (EvGoListenAndServe addr (profilerGoroutine addr)).

(** [ctrl.SetLogger(klogr.New())]. *)
Definition SetLogger : Run unit := tell EvSetLogger.

Definition NewBroadcasterWithCorrelatorOptions (o : cgrecord.CorrelatorOptions)
  : Run cgrecord.EventBroadcaster :=
  fun t =>
    let b := {| cgrecord.Serial := broadcasters t; cgrecord.Correlator := o |} in
    (t ++ [EvNewBroadcasterWithCorrelatorOptions o b], Continue b).

Definition GetConfigOrDie : Run RestConfig :=
  fun t =>
    match GetConfig env with
    | Some cfg => (t ++ [EvGetConfigOrDie (Some cfg)], Continue cfg)
    | None => (t ++ [EvGetConfigOrDie None], Halt Died)
    end.

Definition NewManager (cfg : RestConfig) (o : manager.Options)
  : Run (manager.Manager * option Error) :=
  fun t =>
    match NewManagerErr env cfg o with
    | Some err => (t ++ [EvNewManager cfg o None (Some err)], Continue (None, Some err))
    | None =>
        let mgr := Some {| manager.Serial := managers t; manager.Opts := o |} in
        (t ++ [EvNewManager cfg o mgr None], Continue (mgr, None))
    end.

(** [record.InitFromRecorder]. *)
Definition InitFromRecorder (r : manager.EventRecorder) : Run unit :=
  tell (EvInitFromRecorder r).

Definition SetupSignalHandler : Run Context :=
  fun t =>
    let ctx := SignalContext (signalHandlers t) in
    (t ++ [EvSetupSignalHandler ctx], Continue ctx).

Definition SetupWithManager (r : controllers.Reconciler) (ctx : Context)
    (mgr : manager.Manager) (o : controller.Options) : Run (option Error) :=
  let err := SetupWithManagerErr env r ctx mgr o in
  tell (EvSetupWithManager r ctx mgr o err) ;; ret err.

Definition SetupWebhookWithManager (obj : infrav1alpha4.Object)
    (mgr : manager.Manager) : Run (option Error) :=
  let err := SetupWebhookWithManagerErr env obj mgr in
  tell (EvSetupWebhookWithManager obj mgr err) ;; ret err.

Definition AddReadyzCheck (mgr : manager.Manager) (name : string)
    (check : healthz.Checker) : Run (option Error) :=
  let err := AddReadyzCheckErr env mgr name check in
  tell (EvAddReadyzCheck mgr name check err) ;; ret err.

Definition AddHealthzCheck (mgr : manager.Manager) (name : string)
    (check : healthz.Checker) : Run (option Error) :=
  let err := AddHealthzCheckErr env mgr name check in
  tell (EvAddHealthzCheck mgr name check err) ;; ret err.

Definition Start (mgr : manager.Manager) (ctx : Context) : Run (option Error) :=
  let err := StartErr env mgr ctx in
  tell (EvStart mgr ctx err) ;; ret err.

(** ** [main], from the parsed flag variables on (lines 87-177) *)

Definition mainBody (g : Globals) : Run unit :=
  (if negb (watchNamespace g =? EmptyString)%string then
     setupLog_Info "Watching cluster-api objects only in namespace for reconciliation"
       ["namespace"; watchNamespace g]
   else ret tt) ;;
  (if negb (profilerAddress g =? EmptyString)%string then
     setupLog_Info "Profiler listening for requests"
       ["profiler-address"; profilerAddress g] ;;
     go_ListenAndServe (profilerAddress g)
   else ret tt) ;;
  SetLogger ;;
  broadcaster <- NewBroadcasterWithCorrelatorOptions
    {| cgrecord.BurstSize := 100 |} ;;
  cfg <- GetConfigOrDie ;;
  '(mgr, err) <- NewManager cfg {|
    manager.Scheme := scheme;
    manager.MetricsBindAddress := metricsAddr g;
    manager.LeaderElection := enableLeaderElection g;
    manager.LeaderElectionID := "controller-leader-election-capg";
    manager.LeaderElectionNamespace := leaderElectionNamespace g;
    manager.LeaseDuration := Some (leaderElectionLeaseDuration g);
    manager.RenewDeadline := Some (leaderElectionRenewDeadline g);
    manager.RetryPeriod := Some (leaderElectionRetryPeriod g);
    manager.SyncPeriod := Some (syncPeriod g);
    manager.Namespace := watchNamespace g;
    manager.Port := webhookPort g;
    manager.HealthProbeBindAddress := healthAddr g;
    manager.EventBroadcaster := broadcaster
  |} ;;
  match err with
  | Some err => setupLog_Error err "unable to start manager" [] ;; os.Exit 1
  | None => ret tt
  end ;;
  InitFromRecorder (manager.GetEventRecorderFor mgr "gcp-controller") ;;
  ctx <- SetupSignalHandler ;;
  (if webhookPort g =? 0 then
     err <- SetupWithManager {|
       controllers.Type_ := controllers.GCPMachineReconciler;
       controllers.Client := manager.GetClient mgr;
       controllers.Log := WithName (WithName ctrl.Log "controllers") "GCPMachine";
       controllers.ReconcileTimeout := reconcileTimeout g;
       controllers.WatchFilterValue := watchFilterValue g
     |} ctx mgr {| controller.MaxConcurrentReconciles := gcpMachineConcurrency g |} ;;
     match err with
     | Some err =>
         setupLog_Error err "unable to create controller" ["controller"; "GCPMachine"] ;;
         os.Exit 1
     | None => ret tt
     end ;;
     err <- SetupWithManager {|
       controllers.Type_ := controllers.GCPClusterReconciler;
       controllers.Client := manager.GetClient mgr;
       controllers.Log := WithName (WithName ctrl.Log "controllers") "GCPCluster";
       controllers.ReconcileTimeout := reconcileTimeout g;
       controllers.WatchFilterValue := watchFilterValue g
     |} ctx mgr {| controller.MaxConcurrentReconciles := gcpClusterConcurrency g |} ;;
     match err with
     | Some err =>
         setupLog_Error err "unable to create controller" ["controller"; "GCPCluster"] ;;
         os.Exit 1
     | None => ret tt
     end
   else
     err <- SetupWebhookWithManager infrav1alpha4.GCPMachineTemplate mgr ;;
     match err with
     | Some err =>
         setupLog_Error err "unable to create webhook" ["webhook"; "GCPMachineTemplate"] ;;
         os.Exit 1
     | None => ret tt
     end ;;
     err <- SetupWebhookWithManager infrav1alpha4.GCPMachine mgr ;;
     match err with
     | Some err =>
         setupLog_Error err "unable to create webhook" ["webhook"; "GCPMachine"] ;;
         os.Exit 1
     | None => ret tt
     end) ;;
  err <- AddReadyzCheck mgr "ping" healthz.Ping ;;
  match err with
  | Some err => setupLog_Error err "unable to create ready check" [] ;; os.Exit 1
  | None => ret tt
  end ;;
  err <- AddHealthzCheck mgr "ping" healthz.Ping ;;
  match err with
  | Some err => setupLog_Error err "unable to create health check" [] ;; os.Exit 1
  | None => ret tt
  end ;;
  setupLog_Info "starting manager" ["version"; Version env] ;;
  err <- Start mgr ctx ;;
  match err with
  | Some err => setupLog_Error err "problem running manager" [] ;; os.Exit 1
  | None => ret tt
  end.

End Calls.

(** ** [initFlags] (lines 180-279) *)

Definition initFlags (fs : pflag.State) : pflag.State :=
  let fs := pflag.StringVar p_metricsAddr "metrics-addr" ":8080" fs in
  let fs := pflag.BoolVar p_enableLeaderElection "leader-elect" false fs in
  let fs := pflag.DurationVar p_leaderElectionLeaseDuration
              "leader-elect-lease-duration" (15 * time.Second) fs in
  let fs := pflag.DurationVar p_leaderElectionRenewDeadline
              "leader-elect-renew-deadline" (10 * time.Second) fs in
  let fs := pflag.DurationVar p_leaderElectionRetryPeriod
              "leader-elect-retry-period" (2 * time.Second) fs in
  let fs := pflag.StringVar p_watchNamespace "namespace" EmptyString fs in
  let fs := pflag.StringVar p_leaderElectionNamespace
              "leader-election-namespace" EmptyString fs in
  let fs := pflag.StringVar p_profilerAddress "profiler-address" EmptyString fs in
  let fs := pflag.StringVar p_watchFilterValue "watch-filter" EmptyString fs in
  let fs := pflag.IntVar p_gcpClusterConcurrency "gcpcluster-concurrency" 10 fs in
  let fs := pflag.IntVar p_gcpMachineConcurrency "gcpmachine-concurrency" 10 fs in
  let fs := pflag.DurationVar p_syncPeriod "sync-period" (10 * time.Minute) fs in
  let fs := pflag.IntVar p_webhookPort "webhook-port" 9443 fs in
  let fs := pflag.StringVar p_healthAddr "health-addr" ":9440" fs in
  let fs := pflag.DurationVar p_reconcileTimeout "reconcile-timeout"
              reconciler.DefaultLoopTimeout fs in
  fs.

(** ** [main] (lines 82-178) *)

(** The flag variables once [initFlags] and [pflag.Parse] have run. *)
Definition flags (args : pflag.Args) : Globals :=
  snd (pflag.Parse args (initFlags (pflag.CommandLine, zeroGlobals))).

Definition main (env : Env) (args : pflag.Args) : Trace * Outcome :=
  exec (mainBody env (flags args)).

(** ** The runs of [main], path by path

    The values [main] builds, named, and the trace and outcome of each path
    through [mainBody]; [mainBody_paths] below proves the two agree, and
    the properties are then read off the paths. *)

Definition theBroadcaster : cgrecord.EventBroadcaster :=
  {| cgrecord.Serial := 0%nat; cgrecord.Correlator := {| cgrecord.BurstSize := 100 |} |}.

Definition managerOptions (g : Globals) : manager.Options := {|
  manager.Scheme := scheme;
  manager.MetricsBindAddress := metricsAddr g;
  manager.LeaderElection := enableLeaderElection g;
  manager.LeaderElectionID := "controller-leader-election-capg";
  manager.LeaderElectionNamespace := leaderElectionNamespace g;
  manager.LeaseDuration := Some (leaderElectionLeaseDuration g);
  manager.RenewDeadline := Some (leaderElectionRenewDeadline g);
  manager.RetryPeriod := Some (leaderElectionRetryPeriod g);
  manager.SyncPeriod := Some (syncPeriod g);
  manager.Namespace := watchNamespace g;
  manager.Port := webhookPort g;
  manager.HealthProbeBindAddress := healthAddr g;
  manager.EventBroadcaster := theBroadcaster
|}.

Definition theManager (g : Globals) : manager.Manager :=
  Some {| manager.Serial := 0%nat; manager.Opts := managerOptions g |}.

Definition theContext : Context := SignalContext 0.

Definition machineReconciler (g : Globals) : controllers.Reconciler := {|
  controllers.Type_ := controllers.GCPMachineReconciler;
  controllers.Client := manager.GetClient (theManager g);
  controllers.Log := ["controllers"; "GCPMachine"];
  controllers.ReconcileTimeout := reconcileTimeout g;
  controllers.WatchFilterValue := watchFilterValue g
|}.

Definition clusterReconciler (g : Globals) : controllers.Reconciler := {|
  controllers.Type_ := controllers.GCPClusterReconciler;
  controllers.Client := manager.GetClient (theManager g);
  controllers.Log := ["controllers"; "GCPCluster"];
  controllers.ReconcileTimeout := reconcileTimeout g;
  controllers.WatchFilterValue := watchFilterValue g
|}.

(** The events up to and including the broadcaster's creation: no branch
    of [main] ends the process before them. *)
Definition prelude (env : Env) (g : Globals) : Trace :=
  (if negb (watchNamespace g =? EmptyString)%string then
     [EvInfo ["setup"]
        "Watching cluster-api objects only in namespace for reconciliation"
        ["namespace"; watchNamespace g]]
   else []) ++
  (if negb (profilerAddress g =? EmptyString)%string then
     [EvInfo ["setup"] "Profiler listening for requests"
        ["profiler-address"; profilerAddress g];
      EvGoListenAndServe (profilerAddress g)
        (profilerGoroutine env (profilerAddress g))]
   else []) ++
  [EvSetLogger;
   EvNewBroadcasterWithCorrelatorOptions {| cgrecord.BurstSize := 100 |} theBroadcaster].

(** The way every [if err != nil] block of [main] ends. *)
Definition exit1 (t : Trace) (err : Error) (msg : string) (keysAndValues : list string)
  : Trace * Outcome :=
  (t ++ [EvError ["setup"] err msg keysAndValues], Exited 1).

Section Paths.

Variable env : Env.
Variable g : Globals.

Let mgr := theManager g.
Let ctx := theContext.

Definition pathStart (t : Trace) : Trace * Outcome :=
  let t := t ++ [EvInfo ["setup"] "starting manager" ["version"; Version env]] in
  match StartErr env mgr ctx with
  | Some err => exit1 (t ++ [EvStart mgr ctx (Some err)]) err "problem running manager" []
  | None => (t ++ [EvStart mgr ctx None], Exited 0)
  end.

Definition pathHealth (t : Trace) : Trace * Outcome :=
  match AddReadyzCheckErr env mgr "ping" healthz.Ping with
  | Some err =>
      exit1 (t ++ [EvAddReadyzCheck mgr "ping" healthz.Ping (Some err)])
        err "unable to create ready check" []
  | None =>
      let t := t ++ [EvAddReadyzCheck mgr "ping" healthz.Ping None] in
      match AddHealthzCheckErr env mgr "ping" healthz.Ping with
      | Some err =>
          exit1 (t ++ [EvAddHealthzCheck mgr "ping" healthz.Ping (Some err)])
            err "unable to create health check" []
      | None => pathStart (t ++ [EvAddHealthzCheck mgr "ping" healthz.Ping None])
      end
  end.

Definition pathReconcilers (t : Trace) : Trace * Outcome :=
  let om := {| controller.MaxConcurrentReconciles := gcpMachineConcurrency g |} in
  let oc := {| controller.MaxConcurrentReconciles := gcpClusterConcurrency g |} in
  let rm := machineReconciler g in
  let rc := clusterReconciler g in
  match SetupWithManagerErr env rm ctx mgr om with
  | Some err =>
      exit1 (t ++ [EvSetupWithManager rm ctx mgr om (Some err)])
        err "unable to create controller" ["controller"; "GCPMachine"]
  | None =>
      let t := t ++ [EvSetupWithManager rm ctx mgr om None] in
      match SetupWithManagerErr env rc ctx mgr oc with
      | Some err =>
          exit1 (t ++ [EvSetupWithManager rc ctx mgr oc (Some err)])
            err "unable to create controller" ["controller"; "GCPCluster"]
      | None => pathHealth (t ++ [EvSetupWithManager rc ctx mgr oc None])
      end
  end.

Definition pathWebhooks (t : Trace) : Trace * Outcome :=
  match SetupWebhookWithManagerErr env infrav1alpha4.GCPMachineTemplate mgr with
  | Some err =>
      exit1 (t ++ [EvSetupWebhookWithManager infrav1alpha4.GCPMachineTemplate mgr (Some err)])
        err "unable to create webhook" ["webhook"; "GCPMachineTemplate"]
  | None =>
      let t := t ++ [EvSetupWebhookWithManager infrav1alpha4.GCPMachineTemplate mgr None] in
      match SetupWebhookWithManagerErr env infrav1alpha4.GCPMachine mgr with
      | Some err =>
          exit1 (t ++ [EvSetupWebhookWithManager infrav1alpha4.GCPMachine mgr (Some err)])
            err "unable to create webhook" ["webhook"; "GCPMachine"]
      | None =>
          pathHealth (t ++ [EvSetupWebhookWithManager infrav1alpha4.GCPMachine mgr None])
      end
  end.

Definition paths : Trace * Outcome :=
  let t := prelude env g in
  match GetConfig env with
  | None => (t ++ [EvGetConfigOrDie None], Died)
  | Some cfg =>
      let t := t ++ [EvGetConfigOrDie (Some cfg)] in
      let o := managerOptions g in
      match NewManagerErr env cfg o with
      | Some err =>
          exit1 (t ++ [EvNewManager cfg o None (Some err)]) err "unable to start manager" []
      | None =>
          let t := t ++ [EvNewManager cfg o mgr None;
                         EvInitFromRecorder (manager.GetEventRecorderFor mgr "gcp-controller");
                         EvSetupSignalHandler ctx] in
          if webhookPort g =? 0 then pathReconcilers t else pathWebhooks t
      end
  end.

End Paths.

(** ** Views of a trace *)

(** The reconcilers [SetupWithManager] was called for, in order, and those
    for which it returned nil. *)
Definition reconcilersSetUp (t : Trace) : list controllers.Kind :=
  flat_map (fun e => match e with
                     | EvSetupWithManager r _ _ _ _ => [controllers.Type_ r]
                     | _ => []
                     end) t.

Definition reconcilersRegistered (t : Trace) : list controllers.Kind :=
  flat_map (fun e => match e with
                     | EvSetupWithManager r _ _ _ None => [controllers.Type_ r]
                     | _ => []
                     end) t.

(** The same for [SetupWebhookWithManager]. *)
Definition webhooksSetUp (t : Trace) : list infrav1alpha4.Object :=
  flat_map (fun e => match e with
                     | EvSetupWebhookWithManager obj _ _ => [obj]
                     | _ => []
                     end) t.

Definition webhooksRegistered (t : Trace) : list infrav1alpha4.Object :=
  flat_map (fun e => match e with
                     | EvSetupWebhookWithManager obj _ None => [obj]
                     | _ => []
                     end) t.

(** The checks registered (the call returned nil), as name and checker. *)
Definition readyzChecks (t : Trace) : list (string * healthz.Checker) :=
  flat_map (fun e => match e with
                     | EvAddReadyzCheck _ name check None => [(name, check)]
                     | _ => []
                     end) t.

Definition healthzChecks (t : Trace) : list (string * healthz.Checker) :=
  flat_map (fun e => match e with
                     | EvAddHealthzCheck _ name check None => [(name, check)]
                     | _ => []
                     end) t.

(** The broadcasters created. *)
Definition broadcasterCalls (t : Trace)
  : list (cgrecord.CorrelatorOptions * cgrecord.EventBroadcaster) :=
  flat_map (fun e => match e with
                     | EvNewBroadcasterWithCorrelatorOptions o b => [(o, b)]
                     | _ => []
                     end) t.

(** The contexts produced by [SetupSignalHandler]. *)
Definition contextsMade (t : Trace) : list Context :=
  flat_map (fun e => match e with
                     | EvSetupSignalHandler ctx => [ctx]
                     | _ => []
                     end) t.

(** The contexts handed to calls that take one. *)
Definition contextsUsed (t : Trace) : list Context :=
  flat_map (fun e => match e with
                     | EvSetupWithManager _ ctx _ _ _ => [ctx]
                     | EvStart _ ctx _ => [ctx]
                     | _ => []
                     end) t.

(** The runs of the manager. *)
Definition starts (t : Trace) : list (manager.Manager * Context * option Error) :=
  flat_map (fun e => match e with
                     | EvStart mgr ctx err => [(mgr, ctx, err)]
                     | _ => []
                     end) t.

(** The error a fallible call returned, if it returned one. *)
Definition failure (e : Event) : option Error :=
  match e with
  | EvNewManager _ _ _ err => err
  | EvSetupWithManager _ _ _ _ err => err
  | EvSetupWebhookWithManager _ _ err => err
  | EvAddReadyzCheck _ _ _ err => err
  | EvAddHealthzCheck _ _ _ err => err
  | EvStart _ _ err => err
  | _ => None
  end.

(** The error of a startup construction step: building the manager,
    registering a reconciler, a webhook or a health check. *)
Definition constructionFailure (e : Event) : option Error :=
  match e with
  | EvStart _ _ _ => None
  | _ => failure e
  end.

Definition isBroadcasterCreation (e : Event) : bool :=
  match e with EvNewBroadcasterWithCorrelatorOptions _ _ => true | _ => false end.

Definition isManagerConstruction (e : Event) : bool :=
  match e with EvNewManager _ _ _ _ => true | _ => false end.

Definition isTokenCreation (e : Event) : bool :=
  match e with EvSetupSignalHandler _ => true | _ => false end.

(** Calls that build or install a component: the broadcaster, the manager,
    the reconcilers, the webhooks and the health checks. *)
Definition constructsComponent (e : Event) : bool :=
  match e with
  | EvNewBroadcasterWithCorrelatorOptions _ _
  | EvNewManager _ _ _ _
  | EvSetupWithManager _ _ _ _ _
  | EvSetupWebhookWithManager _ _ _
  | EvAddReadyzCheck _ _ _ _
  | EvAddHealthzCheck _ _ _ _ => true
  | _ => false
  end.

(** Calls made on the manager once it exists: registrations and [Start]. *)
Definition usesManager (e : Event) : bool :=
  match e with
  | EvSetupWithManager _ _ _ _ _
  | EvSetupWebhookWithManager _ _ _
  | EvAddReadyzCheck _ _ _ _
  | EvAddHealthzCheck _ _ _ _
  | EvStart _ _ _ => true
  | _ => false
  end.

(** Every [q] event of the trace has a [p] event somewhere before it. *)
Definition Precedes (p q : Event -> bool) (t : Trace) : Prop :=
  forall pre e post, t = pre ++ e :: post -> q e = true ->
    exists e', In e' pre /\ p e' = true.

Fixpoint precedes (p q : Event -> bool) (t : Trace) : bool :=
  match t with
  | [] => true
  | e :: t' => if q e then false else if p e then true else precedes p q t'
  end.

(** The first failed call of a trace, with what the trace holds after it. *)
Fixpoint firstFailure (t : Trace) : option (Event * Trace) :=
  match t with
  | [] => None
  | e :: t' =>
      match failure e with
      | Some _ => Some (e, t')
      | None => firstFailure t'
      end
  end.

(** ** The environments and command lines used as concrete inputs *)

(** Every call succeeds and the manager stops without error. *)
Definition envOk : Env := {|
  GetConfig := Some "kubeconfig";
  NewManagerErr := fun _ _ => None;
  SetupWithManagerErr := fun _ _ _ _ => None;
  SetupWebhookWithManagerErr := fun _ _ => None;
  AddReadyzCheckErr := fun _ _ _ => None;
  AddHealthzCheckErr := fun _ _ _ => None;
  StartErr := fun _ _ => None;
  ListenAndServeErr := fun _ => None;
  Version := "v0.4.0"
|}.

(** The manager cannot be built. *)
Definition envNoManager : Env := {|
  GetConfig := Some "kubeconfig";
  NewManagerErr := fun _ _ => Some "no kind is registered";
  SetupWithManagerErr := fun _ _ _ _ => None;
  SetupWebhookWithManagerErr := fun _ _ => None;
  AddReadyzCheckErr := fun _ _ _ => None;
  AddHealthzCheckErr := fun _ _ _ => None;
  StartErr := fun _ _ => None;
  ListenAndServeErr := fun _ => None;
  Version := "v0.4.0"
|}.

(** Reconciler mode: [--webhook-port=0]. *)
Definition argsReconcilers : pflag.Args := [("webhook-port", pflag.VInt 0)].

(** [--leader-elect --leader-election-namespace=capg-system]. *)
Definition argsLeaderElect : pflag.Args :=
  [("leader-elect", pflag.VBool true);
   ("leader-election-namespace", pflag.VString "capg-system")].

(** [--leader-elect-renew-deadline=20s], above the 15s lease duration. *)
Definition argsLongRenew : pflag.Args :=
  [("leader-elect-renew-deadline", pflag.VDuration (20 * time.Second))].

(** ** Statements of the specification, as predicates on runs *)

(** The shutdown token comes before any component is built. *)
Definition tokenProducedFirst (t : Trace) : Prop :=
  Precedes isTokenCreation constructsComponent t.

(** The leader election timing the specification calls a configuration
    error. *)
Definition invalidTiming (g : Globals) : Prop :=
  leaderElectionRenewDeadline g >= leaderElectionLeaseDuration g \/
  leaderElectionRetryPeriod g >= leaderElectionRenewDeadline g.

(** Startup rejects the configuration: the manager is never started and
    the process does not end with status 0. *)
Definition rejected (r : Trace * Outcome) : Prop :=
  starts (fst r) = [] /\ snd r <> Exited 0.

(** The flag set [initFlags] leaves in [pflag.CommandLine]. *)
Definition flagSet : pflag.FlagSet :=
  fst (initFlags (pflag.CommandLine, zeroGlobals)).

(** ** Further views of the flag variables and of a trace *)

(** Read a variable through its address. *)
Definition load (p : Var) (g : Globals) : pflag.Value :=
  match p with
  | p_enableLeaderElection => pflag.VBool (enableLeaderElection g)
  | p_metricsAddr => pflag.VString (metricsAddr g)
  | p_leaderElectionNamespace => pflag.VString (leaderElectionNamespace g)
  | p_watchNamespace => pflag.VString (watchNamespace g)
  | p_profilerAddress => pflag.VString (profilerAddress g)
  | p_healthAddr => pflag.VString (healthAddr g)
  | p_watchFilterValue => pflag.VString (watchFilterValue g)
  | p_gcpClusterConcurrency => pflag.VInt (gcpClusterConcurrency g)
  | p_gcpMachineConcurrency => pflag.VInt (gcpMachineConcurrency g)
  | p_webhookPort => pflag.VInt (webhookPort g)
  | p_reconcileTimeout => pflag.VDuration (reconcileTimeout g)
  | p_syncPeriod => pflag.VDuration (syncPeriod g)
  | p_leaderElectionLeaseDuration => pflag.VDuration (leaderElectionLeaseDuration g)
  | p_leaderElectionRenewDeadline => pflag.VDuration (leaderElectionRenewDeadline g)
  | p_leaderElectionRetryPeriod => pflag.VDuration (leaderElectionRetryPeriod g)
  end.

(** Two values of the same flag kind. *)
Definition sameKind (v w : pflag.Value) : bool :=
  match v, w with
  | pflag.VString _, pflag.VString _
  | pflag.VBool _, pflag.VBool _
  | pflag.VInt _, pflag.VInt _
  | pflag.VDuration _, pflag.VDuration _ => true
  | _, _ => false
  end.


(** The addresses the profiler goroutine was started on. *)
Definition profilerStarts (t : Trace) : list string :=
  flat_map (fun e => match e with
                     | EvGoListenAndServe addr _ => [addr]
                     | _ => []
                     end) t.

(** The messages logged with [setupLog.Info] and the like. *)
Definition infosLogged (t : Trace) : list (string * list string) :=
  flat_map (fun e => match e with
                     | EvInfo _ msg kvs => [(msg, kvs)]
                     | _ => []
                     end) t.

Definition kindName (k : controllers.Kind) : string :=
  match k with
  | controllers.GCPMachineReconciler => "GCPMachine"
  | controllers.GCPClusterReconciler => "GCPCluster"
  end.



(** The manager a call is made on. *)
Definition managerOf (e : Event) : option manager.Manager :=
  match e with
  | EvSetupWithManager _ _ mgr _ _
  | EvSetupWebhookWithManager _ mgr _
  | EvAddReadyzCheck mgr _ _ _
  | EvAddHealthzCheck mgr _ _ _
  | EvStart mgr _ _ => Some mgr
  | EvInitFromRecorder (manager.GetEventRecorderFor mgr _) => Some mgr
  | _ => None
  end.

(** The calls of a trace, log entries left out, and the place of each call
    in the startup sequence of [main]. *)
Definition isCall (e : Event) : bool :=
  match e with
  | EvInfo _ _ _ | EvError _ _ _ _ => false
  | _ => true
  end.

Definition calls (t : Trace) : Trace := filter isCall t.

Definition stage (e : Event) : nat :=
  match e with
  | EvInfo _ _ _ | EvError _ _ _ _ => 0
  | EvGoListenAndServe _ _ => 1
  | EvSetLogger => 2
  | EvNewBroadcasterWithCorrelatorOptions _ _ => 3
  | EvGetConfigOrDie _ => 4
  | EvNewManager _ _ _ _ => 5
  | EvInitFromRecorder _ => 6
  | EvSetupSignalHandler _ => 7
  | EvSetupWithManager r _ _ _ _ =>
      match controllers.Type_ r with
      | controllers.GCPMachineReconciler => 8
      | controllers.GCPClusterReconciler => 9
      end
  | EvSetupWebhookWithManager obj _ _ =>
      match obj with
      | infrav1alpha4.GCPMachineTemplate => 8
      | infrav1alpha4.GCPMachine => 9
      end
  | EvAddReadyzCheck _ _ _ _ => 10
  | EvAddHealthzCheck _ _ _ _ => 11
  | EvStart _ _ _ => 12
  end%nat.

(** [GetConfigOrDie] cannot load the configuration. *)
Definition envNoConfig : Env := {|
  GetConfig := None;
  NewManagerErr := fun _ _ => None;
  SetupWithManagerErr := fun _ _ _ _ => None;
  SetupWebhookWithManagerErr := fun _ _ => None;
  AddReadyzCheckErr := fun _ _ _ => None;
  AddHealthzCheckErr := fun _ _ _ => None;
  StartErr := fun _ _ => None;
  ListenAndServeErr := fun _ => None;
  Version := "v0.4.0"
|}.


(** [--profiler-address=localhost:6060 --namespace=capg-system]. *)
Definition argsProfiler : pflag.Args :=
  [("profiler-address", pflag.VString "localhost:6060");
   ("namespace", pflag.VString "capg-system")].

(** The flag webhook-port as [initFlags] registers it. *)
Definition webhookPortFlag : pflag.Flag :=
  {| pflag.Name := "webhook-port";
     pflag.Target := p_webhookPort;
     pflag.DefValue := pflag.VInt 9443 |}.

(** The flag profiler-address as [initFlags] registers it. *)
Definition profilerAddressFlag : pflag.Flag :=
  {| pflag.Name := "profiler-address";
     pflag.Target := p_profilerAddress;
     pflag.DefValue := pflag.VString EmptyString |}.

(** ** [mainBody] and its paths agree *)

Ltac path_step :=
  match goal with
  | |- context [match NewManagerErr ?e ?c ?o with _ => _ end] =>
      destruct (NewManagerErr e c o) eqn:?
  | |- context [match SetupWithManagerErr ?e ?r ?c ?m ?o with _ => _ end] =>
      destruct (SetupWithManagerErr e r c m o) eqn:?
  | |- context [match SetupWebhookWithManagerErr ?e ?r ?m with _ => _ end] =>
      destruct (SetupWebhookWithManagerErr e r m) eqn:?
  | |- context [match AddReadyzCheckErr ?e ?r ?c ?m with _ => _ end] =>
      destruct (AddReadyzCheckErr e r c m) eqn:?
  | |- context [match AddHealthzCheckErr ?e ?r ?c ?m with _ => _ end] =>
      destruct (AddHealthzCheckErr e r c m) eqn:?
  | |- context [match StartErr ?e ?r ?m with _ => _ end] =>
      destruct (StartErr e r m) eqn:?
  end.

Ltac run_red :=
  cbv beta iota zeta delta
    [exec mainBody bind ret tell setupLog_Info setupLog_Error go_ListenAndServe
     SetLogger NewBroadcasterWithCorrelatorOptions GetConfigOrDie NewManager
     InitFromRecorder SetupSignalHandler SetupWithManager SetupWebhookWithManager
     AddReadyzCheck AddHealthzCheck Start os.Exit app fst snd
     signalHandlers broadcasters managers
     paths pathReconcilers pathWebhooks pathHealth pathStart exit1 prelude
     theManager theContext theBroadcaster managerOptions
     machineReconciler clusterReconciler setupLog WithName ctrl.Log].

Lemma mainBody_paths (env : Env) (g : Globals) :
  exec (mainBody env g) = paths env g.
Proof.
  unfold mainBody, paths, prelude.
  destruct (negb (watchNamespace g =? EmptyString)%string);
    destruct (negb (profilerAddress g =? EmptyString)%string);
    destruct (GetConfig env) eqn:HC;
    destruct (webhookPort g =? 0) eqn:HP.
  all: run_red; try rewrite HC; try rewrite HP; run_red; try reflexivity.
  all: repeat (path_step; run_red; try rewrite HP; run_red); reflexivity.
Qed.

Lemma main_paths (env : Env) (args : pflag.Args) :
  main env args = paths env (flags args).
Proof. apply mainBody_paths. Qed.

(** Case analysis over the paths of a run of [main] with flag variables [g]:
    the two optional log blocks, the configuration, the mode and the result
    of every call on the way. *)
Ltac by_paths env g :=
  let t := fresh "t" in
  let out := fresh "out" in
  let E := fresh "E" in
  destruct (paths env g) as [t out] eqn:E;
  cbn [fst snd];
  revert E;
  unfold paths, pathReconcilers, pathWebhooks, pathHealth, pathStart, exit1, prelude;
  destruct (negb (watchNamespace g =? EmptyString)%string);
  destruct (negb (profilerAddress g =? EmptyString)%string);
  destruct (GetConfig env) eqn:?;
  destruct (webhookPort g =? 0) eqn:?;
  repeat path_step;
  cbn [app];
  intros E; injection E as <- <-;
  repeat match goal with
    | H : (_ =? _) = true |- _ => apply Z.eqb_eq in H
    | H : (_ =? _) = false |- _ => apply Z.eqb_neq in H
    end.

(** ** Lemmas on traces *)

Ltac in_cases H :=
  cbn [In] in H;
  repeat (destruct H as [H | H]; [try discriminate H | ]);
  try contradiction.

Lemma precedes_sound (p q : Event -> bool) (t : Trace) :
  precedes p q t = true -> Precedes p q t.
Proof.
  induction t as [| a t IH]; intros H pre e post Heq Hq.
  - destruct pre; discriminate Heq.
  - simpl in H. destruct pre as [| b pre]; simpl in Heq; injection Heq as <- Heq.
    + rewrite Hq in H. discriminate H.
    + destruct (q a); [discriminate H |].
      destruct (p a) eqn:Hp.
      * exists a. split; [left; reflexivity | exact Hp].
      * destruct (IH H pre e post Heq Hq) as [e' [Hin He']].
        exists e'. split; [right; exact Hin | exact He'].
Qed.

Lemma no_failure (t : Trace) :
  firstFailure t = None ->
  forall pre e post err, t = pre ++ e :: post -> failure e = Some err -> False.
Proof.
  induction t as [| a t IH]; intros H pre e post err Heq Hf.
  - destruct pre; discriminate Heq.
  - simpl in H. destruct (failure a) eqn:Ha; [discriminate H |].
    destruct pre as [| b pre]; simpl in Heq; injection Heq as <- Heq.
    + congruence.
    + exact (IH H pre e post err Heq Hf).
Qed.

(** When nothing fails after the first failed call, it is the only one. *)
Lemma only_failure (t : Trace) (e0 : Event) (post0 : Trace) :
  firstFailure t = Some (e0, post0) ->
  (forall x, In x post0 -> failure x = None) ->
  forall pre e post err, t = pre ++ e :: post -> failure e = Some err ->
    e = e0 /\ post = post0.
Proof.
  induction t as [| a t IH]; intros H Hpost pre e post err Heq Hf.
  - discriminate H.
  - simpl in H. destruct pre as [| b pre]; simpl in Heq; injection Heq as <- Heq.
    + rewrite Hf in H. injection H as H1 H2. subst. split; reflexivity.
    + destruct (failure a) eqn:Hb.
      * injection H as H1 H2.
        assert (failure e = None) as Hn
            by (apply Hpost; subst; apply in_elt).
        congruence.
      * exact (IH H Hpost pre e post err Heq Hf).
Qed.

Lemma precedes_complete (p q : Event -> bool) (t : Trace) :
  Precedes p q t -> precedes p q t = true.
Proof.
  induction t as [| a t IH]; intros H; simpl; [reflexivity |].
  destruct (q a) eqn:Hq.
  - destruct (H [] a t eq_refl Hq) as [e' [[] _]].
  - destruct (p a) eqn:Hp; [reflexivity |].
    apply IH. intros pre e post Heq He.
    destruct (H (a :: pre) e post) as [e' [Hin He']];
      [simpl; rewrite Heq; reflexivity | exact He |].
    destruct Hin as [<- | Hin]; [congruence |].
    exists e'. split; assumption.
Qed.

Lemma firstFailure_failed (t : Trace) (e : Event) (post : Trace) :
  firstFailure t = Some (e, post) -> In e t /\ exists err, failure e = Some err.
Proof.
  induction t as [| a t IH]; simpl; intros H; [discriminate H |].
  destruct (failure a) as [err |] eqn:Ha.
  - injection H as <- _. split; [left; reflexivity | exists err; exact Ha].
  - destruct (IH H) as [Hin Hf]. split; [right; exact Hin | exact Hf].
Qed.

(** ** Lemmas on parsing *)

Lemma Parse_flagset (args : pflag.Args) (s : pflag.State) :
  fst (pflag.Parse args s) = fst s.
Proof.
  revert s. induction args as [| [name v] rest IH]; intros s; simpl.
  - reflexivity.
  - destruct (pflag.Lookup (fst s) name); rewrite IH; reflexivity.
Qed.

Lemma Parse_app (a b : pflag.Args) (s : pflag.State) :
  pflag.Parse (a ++ b) s = pflag.Parse b (pflag.Parse a s).
Proof.
  revert s. induction a as [| [name v] rest IH]; intros s; simpl.
  - reflexivity.
  - destruct (pflag.Lookup (fst s) name); apply IH.
Qed.

(** The last occurrence on the command line wins. *)
Lemma flags_snoc (args : pflag.Args) (name : string) (v : pflag.Value) :
  flags (args ++ [(name, v)]) =
    match pflag.Lookup flagSet name with
    | Some f => pflag.store (pflag.Target f) v (flags args)
    | None => flags args
    end.
Proof.
  unfold flags. rewrite Parse_app.
  set (s := pflag.Parse args (initFlags (pflag.CommandLine, zeroGlobals))).
  change (pflag.Parse [(name, v)] s)
    with (match pflag.Lookup (fst s) name with
          | Some f => (fst s, pflag.store (pflag.Target f) v (snd s))
          | None => s
          end).
  subst s. rewrite Parse_flagset. fold flagSet.
  destruct (pflag.Lookup flagSet name); reflexivity.
Qed.

(** ** The flag variables after parsing *)

Lemma flags_default :
  flags [] = {|
    enableLeaderElection := false;
    metricsAddr := ":8080";
    leaderElectionNamespace := EmptyString;
    watchNamespace := EmptyString;
    profilerAddress := EmptyString;
    healthAddr := ":9440";
    watchFilterValue := EmptyString;
    gcpClusterConcurrency := 10;
    gcpMachineConcurrency := 10;
    webhookPort := 9443;
    reconcileTimeout := 90 * time.Minute;
    syncPeriod := 10 * time.Minute;
    leaderElectionLeaseDuration := 15 * time.Second;
    leaderElectionRenewDeadline := 10 * time.Second;
    leaderElectionRetryPeriod := 2 * time.Second
  |}.
Proof. reflexivity. Qed.

(** ** Mode selection *)

(** C1. With webhook port 0 a run sets up no webhook and only the two
    reconcilers, GCPMachine then GCPCluster, both registered once the
    manager gets started; with a nonzero port it sets up no reconciler and
    only the two webhooks, GCPMachineTemplate then GCPMachine, both
    registered once the manager gets started.  No run sets up both
    reconcilers and webhooks: the port is looked at once, and the trace is
    the whole run. *)
Theorem C1_mode_selection (env : Env) (args : pflag.Args) :
  (webhookPort (flags args) = 0 ->
     webhooksSetUp (fst (main env args)) = [] /\
     (reconcilersSetUp (fst (main env args)) = [] \/
      reconcilersSetUp (fst (main env args)) = [controllers.GCPMachineReconciler] \/
      reconcilersSetUp (fst (main env args)) =
        [controllers.GCPMachineReconciler; controllers.GCPClusterReconciler]) /\
     (starts (fst (main env args)) <> [] ->
      reconcilersRegistered (fst (main env args)) =
        [controllers.GCPMachineReconciler; controllers.GCPClusterReconciler])) /\
  (webhookPort (flags args) <> 0 ->
     reconcilersSetUp (fst (main env args)) = [] /\
     (webhooksSetUp (fst (main env args)) = [] \/
      webhooksSetUp (fst (main env args)) = [infrav1alpha4.GCPMachineTemplate] \/
      webhooksSetUp (fst (main env args)) =
        [infrav1alpha4.GCPMachineTemplate; infrav1alpha4.GCPMachine]) /\
     (starts (fst (main env args)) <> [] ->
      webhooksRegistered (fst (main env args)) =
        [infrav1alpha4.GCPMachineTemplate; infrav1alpha4.GCPMachine])) /\
  (reconcilersSetUp (fst (main env args)) = [] \/
   webhooksSetUp (fst (main env args)) = []).
Proof.
  rewrite main_paths. generalize (flags args) as g. intros g.
  by_paths env g.
  all: cbv [webhooksSetUp reconcilersSetUp reconcilersRegistered webhooksRegistered
            starts flat_map app controllers.Type_ machineReconciler clusterReconciler].
  all: repeat split; intros; try contradiction; try congruence; auto.
Qed.

(** A run in each mode with every call succeeding: the two sets in full. *)
Lemma C1_mode_selection_witness :
  (webhooksSetUp (fst (main envOk argsReconcilers)) = [] /\
   reconcilersRegistered (fst (main envOk argsReconcilers)) =
     [controllers.GCPMachineReconciler; controllers.GCPClusterReconciler]) /\
  (reconcilersSetUp (fst (main envOk [])) = [] /\
   webhooksRegistered (fst (main envOk [])) =
     [infrav1alpha4.GCPMachineTemplate; infrav1alpha4.GCPMachine]).
Proof.
  split.
  - destruct (C1_mode_selection envOk argsReconcilers) as [H _].
    destruct (H eq_refl) as [Hw [_ Hr]].
    split; [exact Hw | apply Hr; vm_compute; discriminate].
  - destruct (C1_mode_selection envOk []) as [_ [H _]].
    assert (webhookPort (flags []) <> 0) as Hp by (vm_compute; discriminate).
    destruct (H Hp) as [Hr [_ Hw]].
    split; [exact Hr | apply Hw; vm_compute; discriminate].
Defined.

(** ** Startup failures *)

(** On a path, a failed call is the first and only one; what follows it is
    the log entry with its error. *)
Ltac failed_call :=
  let pre := fresh "pre" in
  let ev := fresh "ev" in
  let post := fresh "post" in
  let err := fresh "err" in
  let Heq := fresh "Heq" in
  let Hf := fresh "Hf" in
  let x := fresh "x" in
  let Hx := fresh "Hx" in
  intros pre ev post err Heq Hf;
  first
    [ exfalso; eapply no_failure; [ | exact Heq | exact Hf ]; reflexivity
    | edestruct only_failure as [? ?];
      [ | | exact Heq | exact Hf | ];
      [ reflexivity
      | intros x Hx; in_cases Hx; subst x; reflexivity
      | subst ev post; cbn in Hf; injection Hf as <-;
        split; [ reflexivity | split; [ eexists; eexists; reflexivity | ] ];
        first [ reflexivity | intros Hc; discriminate Hc ] ] ].

Ltac started_iff_exit0 :=
  let H := fresh "H" in
  let m := fresh "m" in
  let c := fresh "c" in
  split;
  [ intros H; first [ discriminate H | eexists; eexists; cbn [In]; tauto ]
  | intros [m [c H]]; first [ reflexivity | in_cases H ] ].

Ltac exit0_no_failure :=
  let H := fresh "H" in
  let x := fresh "x" in
  let Hx := fresh "Hx" in
  intros H; first [ discriminate H | intros x Hx; in_cases Hx; subst x; reflexivity ].

(** C2. In every run, a call that returns an error is followed by exactly
    one thing, the log entry carrying that error, and the process exits
    with status 1: nothing is retried and nothing else is set up; when the
    failed call is a construction step the manager is never started.
    Status 0 is reached exactly by the runs in which [mgr.Start] was called
    and returned nil, and in those no call failed. *)
Theorem C2_startup_failure_exits (env : Env) (args : pflag.Args) :
  (forall pre e post err,
      fst (main env args) = pre ++ e :: post ->
      failure e = Some err ->
      snd (main env args) = Exited 1 /\
      (exists msg keysAndValues, post = [EvError setupLog err msg keysAndValues]) /\
      (constructionFailure e = Some err -> starts (fst (main env args)) = [])) /\
  (snd (main env args) = Exited 0 <->
   exists mgr ctx, In (EvStart mgr ctx None) (fst (main env args))) /\
  (snd (main env args) = Exited 0 ->
   forall e, In e (fst (main env args)) -> failure e = None).
Proof.
  rewrite main_paths. generalize (flags args) as g. intros g.
  by_paths env g.
  all: split; [ failed_call | split; [ started_iff_exit0 | exit0_no_failure ] ].
Qed.

(** The manager cannot be built: status 1, the cause logged, nothing
    started; and with every call succeeding, status 0. *)
Lemma C2_startup_failure_exits_witness :
  (snd (main envNoManager []) = Exited 1 /\
   starts (fst (main envNoManager [])) = []) /\
  (exists mgr ctx, In (EvStart mgr ctx None) (fst (main envOk []))).
Proof.
  split.
  - destruct (C2_startup_failure_exits envNoManager []) as [H _].
    destruct (H [EvSetLogger;
                 EvNewBroadcasterWithCorrelatorOptions
                   {| cgrecord.BurstSize := 100 |} theBroadcaster;
                 EvGetConfigOrDie (Some "kubeconfig")]
                (EvNewManager "kubeconfig" (managerOptions (flags [])) None
                   (Some "no kind is registered"))
                [EvError setupLog "no kind is registered" "unable to start manager" []]
                "no kind is registered" eq_refl eq_refl) as [H1 [_ H3]].
    split; [exact H1 | exact (H3 eq_refl)].
  - destruct (C2_startup_failure_exits envOk []) as [_ [H _]].
    apply H. reflexivity.
Defined.

(** ** The shutdown context *)

(** C3, as amended.  [SetupSignalHandler] is called at most once, and
    exactly when the manager has been built; the call comes after the
    broadcaster's creation and the manager's construction and before every
    registration and before [Start]; and every call that takes a context,
    the reconciler registrations and [Start], takes the one it returned. *)
Theorem C3_token_after_manager (env : Env) (args : pflag.Args) :
  contextsMade (fst (main env args)) =
    match managers (fst (main env args)) with
    | O => []
    | S _ => [theContext]
    end /\
  Precedes isBroadcasterCreation isTokenCreation (fst (main env args)) /\
  Precedes isManagerConstruction isTokenCreation (fst (main env args)) /\
  Precedes isTokenCreation usesManager (fst (main env args)) /\
  (forall c, In c (contextsUsed (fst (main env args))) ->
     contextsMade (fst (main env args)) = [c]).
Proof.
  rewrite main_paths. generalize (flags args) as g. intros g.
  by_paths env g.
  all: split; [ reflexivity | ].
  all: split; [ apply precedes_sound; reflexivity | ].
  all: split; [ apply precedes_sound; reflexivity | ].
  all: split; [ apply precedes_sound; reflexivity | ].
  all: intros c Hc; cbv [contextsUsed flat_map app] in Hc; in_cases Hc;
       subst c; reflexivity.
Qed.

(** With every call succeeding, the manager's [Start] runs under the
    context made by the one [SetupSignalHandler] call. *)
Lemma C3_token_after_manager_witness :
  contextsMade (fst (main envOk [])) = [theContext].
Proof.
  destruct (C3_token_after_manager envOk []) as [_ [_ [_ [_ H]]]].
  apply H. vm_compute. left. reflexivity.
Defined.

(** In the default run with every call succeeding, the broadcaster and the
    manager are built before any shutdown context exists. *)
Lemma C3_counterexample : ~ tokenProducedFirst (fst (main envOk [])).
Proof.
  intros H. apply precedes_complete in H. vm_compute in H. discriminate H.
Qed.

(** ** Health checks *)

(** C4. Whatever the mode and the leader election setting, a health check
    is only ever added under the name ping, with [healthz.Ping], on the
    manager [main] built.  In either mode, once the mode's two
    registrations have returned nil the readiness check is added, and once
    that has returned nil the liveness check is added; a run that gets as
    far as starting the manager has registered both. *)
Theorem C4_ping_checks_in_both_modes (env : Env) (args : pflag.Args) :
  (forall mgr name check err,
      In (EvAddReadyzCheck mgr name check err) (fst (main env args)) \/
      In (EvAddHealthzCheck mgr name check err) (fst (main env args)) ->
      mgr = theManager (flags args) /\ name = "ping" /\ check = healthz.Ping) /\
  (List.length (reconcilersRegistered (fst (main env args))) = 2%nat \/
   List.length (webhooksRegistered (fst (main env args))) = 2%nat ->
   exists err,
     In (EvAddReadyzCheck (theManager (flags args)) "ping" healthz.Ping err)
        (fst (main env args)) /\
     (err = None ->
      exists err',
        In (EvAddHealthzCheck (theManager (flags args)) "ping" healthz.Ping err')
           (fst (main env args)))) /\
  (starts (fst (main env args)) <> [] ->
   readyzChecks (fst (main env args)) = [("ping", healthz.Ping)] /\
   healthzChecks (fst (main env args)) = [("ping", healthz.Ping)]).
Proof.
  rewrite main_paths. generalize (flags args) as g. intros g.
  by_paths env g.
  all: split;
    [ intros mgr name check err' [H | H]; in_cases H;
      injection H as <- <- <- <-; repeat split
    | split;
      [ intros [H | H]; try discriminate H;
        (eexists; split;
         [ cbn [In]; tauto
         | intros He; try discriminate He; eexists; cbn [In]; tauto ])
      | intros H; first [ exfalso; apply H; reflexivity | split; reflexivity ] ] ].
Qed.

(** Both modes with every call succeeding. *)
Lemma C4_ping_checks_in_both_modes_witness :
  (readyzChecks (fst (main envOk argsReconcilers)) = [("ping", healthz.Ping)] /\
   healthzChecks (fst (main envOk argsReconcilers)) = [("ping", healthz.Ping)]) /\
  (readyzChecks (fst (main envOk [])) = [("ping", healthz.Ping)] /\
   healthzChecks (fst (main envOk [])) = [("ping", healthz.Ping)]).
Proof.
  split.
  - destruct (C4_ping_checks_in_both_modes envOk argsReconcilers) as [_ [_ H]].
    apply H. vm_compute. discriminate.
  - destruct (C4_ping_checks_in_both_modes envOk []) as [_ [_ H]].
    apply H. vm_compute. discriminate.
Defined.

(** ** Leader election timing *)

(** C5, as amended.  [main] does not compare the three leader election
    durations.  For a configuration with renew deadline at or above the
    lease duration, or retry period at or above the renew deadline, the
    manager is constructed with the three values as given, and the run is
    turned down only where a call outside [main] fails: either the process
    ends with status 0, having started the manager built with those
    values, or the configuration could not be loaded, or some call
    returned an error. *)
Theorem C5_timing_not_checked (env : Env) (args : pflag.Args) :
  invalidTiming (flags args) ->
  (forall cfg o mgr err,
      In (EvNewManager cfg o mgr err) (fst (main env args)) ->
      manager.LeaseDuration o = Some (leaderElectionLeaseDuration (flags args)) /\
      manager.RenewDeadline o = Some (leaderElectionRenewDeadline (flags args)) /\
      manager.RetryPeriod o = Some (leaderElectionRetryPeriod (flags args))) /\
  ((snd (main env args) = Exited 0 /\
    starts (fst (main env args)) = [(theManager (flags args), theContext, None)]) \/
   GetConfig env = None \/
   exists e err, In e (fst (main env args)) /\ failure e = Some err).
Proof.
  intros _.
  rewrite main_paths. generalize (flags args) as g. intros g.
  by_paths env g.
  all: split;
    [ intros cfg o mgr err' H; in_cases H; injection H as <- <- <- <-;
      repeat split
    | first
        [ left; split; reflexivity
        | right; left; reflexivity
        | right; right;
          match goal with
          | |- exists e err, In e ?t /\ _ =>
              let FF := fresh "FF" in
              destruct (firstFailure t) as [[e0 p0] |] eqn:FF;
              [ destruct (firstFailure_failed _ FF) as [Hin [er Hf]];
                exists e0, er; split; assumption
              | simpl in FF; discriminate FF ]
          end ] ].
Qed.

(** A renew deadline of 20s against the default 15s lease: with every call
    succeeding the manager is started with it and the process ends with
    status 0. *)
Lemma C5_timing_not_checked_witness :
  invalidTiming (flags argsLongRenew) /\
  snd (main envOk argsLongRenew) = Exited 0 /\
  starts (fst (main envOk argsLongRenew)) =
    [(theManager (flags argsLongRenew), theContext, None)].
Proof.
  assert (invalidTiming (flags argsLongRenew)) as Hinv
      by (left; vm_compute; discriminate).
  split; [exact Hinv |].
  destruct (C5_timing_not_checked envOk argsLongRenew Hinv) as [_ [H | [H | H]]].
  - exact H.
  - discriminate H.
  - exfalso. destruct H as [e [err [Hin Hf]]].
    vm_compute in Hin.
    repeat (destruct Hin as [Hin | Hin]; [subst e; discriminate Hf |]).
    exact Hin.
Defined.

(** The claim as the specification has it fails: the configuration of
    [argsLongRenew] is invalid by its rule and is not rejected. *)
Lemma C5_counterexample :
  ~ (invalidTiming (flags argsLongRenew) -> rejected (main envOk argsLongRenew)).
Proof.
  intros H.
  assert (invalidTiming (flags argsLongRenew)) as Hinv
      by (left; vm_compute; discriminate).
  destruct (H Hinv) as [_ Hout]. apply Hout. reflexivity.
Qed.

(** ** Leader election options *)

(** C6. The flag leader-elect is registered with default false, and the
    lease duration, renew deadline and retry period flags with 15s, 10s and
    2s; given no flags the four variables hold these defaults, and a flag
    given on the command line sets its variable.  Whenever the manager is
    constructed, and it is in every run that loads its configuration, its
    options carry the four variables as they are; so with leader-elect
    false the manager is built with leader election off. *)
Theorem C6_leader_election_options (env : Env) (args : pflag.Args) :
  (pflag.Lookup flagSet "leader-elect" =
     Some {| pflag.Name := "leader-elect";
             pflag.Target := p_enableLeaderElection;
             pflag.DefValue := pflag.VBool false |} /\
   pflag.Lookup flagSet "leader-elect-lease-duration" =
     Some {| pflag.Name := "leader-elect-lease-duration";
             pflag.Target := p_leaderElectionLeaseDuration;
             pflag.DefValue := pflag.VDuration (15 * time.Second) |} /\
   pflag.Lookup flagSet "leader-elect-renew-deadline" =
     Some {| pflag.Name := "leader-elect-renew-deadline";
             pflag.Target := p_leaderElectionRenewDeadline;
             pflag.DefValue := pflag.VDuration (10 * time.Second) |} /\
   pflag.Lookup flagSet "leader-elect-retry-period" =
     Some {| pflag.Name := "leader-elect-retry-period";
             pflag.Target := p_leaderElectionRetryPeriod;
             pflag.DefValue := pflag.VDuration (2 * time.Second) |}) /\
  (enableLeaderElection (flags []) = false /\
   leaderElectionLeaseDuration (flags []) = 15 * time.Second /\
   leaderElectionRenewDeadline (flags []) = 10 * time.Second /\
   leaderElectionRetryPeriod (flags []) = 2 * time.Second) /\
  (forall b d,
     enableLeaderElection (flags (args ++ [("leader-elect", pflag.VBool b)])) = b /\
     leaderElectionLeaseDuration
       (flags (args ++ [("leader-elect-lease-duration", pflag.VDuration d)])) = d /\
     leaderElectionRenewDeadline
       (flags (args ++ [("leader-elect-renew-deadline", pflag.VDuration d)])) = d /\
     leaderElectionRetryPeriod
       (flags (args ++ [("leader-elect-retry-period", pflag.VDuration d)])) = d) /\
  (forall cfg o mgr err,
     In (EvNewManager cfg o mgr err) (fst (main env args)) ->
     manager.LeaderElection o = enableLeaderElection (flags args) /\
     manager.LeaseDuration o = Some (leaderElectionLeaseDuration (flags args)) /\
     manager.RenewDeadline o = Some (leaderElectionRenewDeadline (flags args)) /\
     manager.RetryPeriod o = Some (leaderElectionRetryPeriod (flags args)) /\
     (enableLeaderElection (flags args) = false -> manager.LeaderElection o = false)) /\
  (forall cfg,
     GetConfig env = Some cfg ->
     exists mgr err,
       In (EvNewManager cfg (managerOptions (flags args)) mgr err) (fst (main env args))).
Proof.
  split; [ repeat split | ].
  split; [ repeat split | ].
  split.
  { intros b d. rewrite !flags_snoc. cbn. destruct (flags args). repeat split. }
  rewrite main_paths. generalize (flags args) as g. intros g.
  by_paths env g.
  all: split;
    [ intros cfg o mgr err' H; in_cases H; injection H as <- <- <- <-;
      repeat split; intros Hle; exact Hle
    | intros cfg Hc; first [ discriminate Hc | injection Hc as <- ];
      eexists; eexists; cbn [In]; tauto ].
Qed.

(** The default run with every call succeeding: leader election is off in
    the options the manager is built with, and the durations are the
    defaults. *)
Lemma C6_leader_election_options_witness :
  exists cfg o mgr err,
    In (EvNewManager cfg o mgr err) (fst (main envOk [])) /\
    manager.LeaderElection o = false /\
    manager.LeaseDuration o = Some (15 * time.Second) /\
    manager.RenewDeadline o = Some (10 * time.Second) /\
    manager.RetryPeriod o = Some (2 * time.Second).
Proof.
  destruct (C6_leader_election_options envOk []) as [_ [_ [_ [Hopts Hcall]]]].
  destruct (Hcall "kubeconfig" eq_refl) as [mgr [err Hin]].
  destruct (Hopts _ _ _ _ Hin) as [_ [Hl [Hr [Hp Hoff]]]].
  exists "kubeconfig", (managerOptions (flags [])), mgr, err.
  split; [exact Hin |].
  split; [exact (Hoff eq_refl) |].
  split; [exact Hl |]. split; [exact Hr | exact Hp].
Defined.

(** ** Reconciler registrations *)

(** C7. The flag reconcile-timeout is registered with
    [reconciler.DefaultLoopTimeout], 90 minutes, as its default, which the
    variable holds when the flag is not given, and a value given on the
    command line replaces it.  Every reconciler handed to
    [SetupWithManager] carries the variable as its [ReconcileTimeout]; in
    reconciler mode the GCPMachine reconciler is handed over as soon as the
    manager is built, and both are registered with it in a run that gets
    the manager started. *)
Theorem C7_reconcile_timeout (env : Env) (args : pflag.Args) :
  pflag.Lookup flagSet "reconcile-timeout" =
    Some {| pflag.Name := "reconcile-timeout";
            pflag.Target := p_reconcileTimeout;
            pflag.DefValue := pflag.VDuration (90 * time.Minute) |} /\
  reconcileTimeout (flags []) = 90 * time.Minute /\
  (forall d,
     reconcileTimeout (flags (args ++ [("reconcile-timeout", pflag.VDuration d)])) = d) /\
  (forall r ctx mgr o err,
     In (EvSetupWithManager r ctx mgr o err) (fst (main env args)) ->
     controllers.ReconcileTimeout r = reconcileTimeout (flags args)) /\
  (webhookPort (flags args) = 0 ->
   managers (fst (main env args)) <> 0%nat ->
   In controllers.GCPMachineReconciler (reconcilersSetUp (fst (main env args)))) /\
  (webhookPort (flags args) = 0 ->
   starts (fst (main env args)) <> [] ->
   exists om oc,
     In (EvSetupWithManager (machineReconciler (flags args)) theContext
           (theManager (flags args)) om None) (fst (main env args)) /\
     In (EvSetupWithManager (clusterReconciler (flags args)) theContext
           (theManager (flags args)) oc None) (fst (main env args)) /\
     controllers.ReconcileTimeout (machineReconciler (flags args)) =
       reconcileTimeout (flags args) /\
     controllers.ReconcileTimeout (clusterReconciler (flags args)) =
       reconcileTimeout (flags args)).
Proof.
  split; [ reflexivity | ].
  split; [ reflexivity | ].
  split.
  { intros d. rewrite flags_snoc. cbn. destruct (flags args). reflexivity. }
  rewrite main_paths. generalize (flags args) as g. intros g.
  by_paths env g.
  all: split;
    [ intros r' ctx' mgr' o' err' H; in_cases H; injection H as <- _ _ _ _; reflexivity
    | split;
      [ intros Hp Hm;
        first [ contradiction | exfalso; apply Hm; reflexivity
              | cbv [reconcilersSetUp flat_map app In controllers.Type_
                     machineReconciler]; tauto ]
      | intros Hp Hs;
        first [ contradiction | exfalso; apply Hs; reflexivity
              | eexists; eexists; cbn [In];
                split; [ tauto | split; [ tauto | split; reflexivity ] ] ] ] ].
Qed.

(** Reconciler mode with a 30 minute timeout and every call succeeding:
    the GCPMachine reconciler is set up, and the variable holds the 30
    minutes its reconcilers are built with. *)
Lemma C7_reconcile_timeout_witness :
  In controllers.GCPMachineReconciler
     (reconcilersSetUp
        (fst (main envOk
                (argsReconcilers ++
                 [("reconcile-timeout", pflag.VDuration (30 * time.Minute))])))) /\
  reconcileTimeout
    (flags (argsReconcilers ++
            [("reconcile-timeout", pflag.VDuration (30 * time.Minute))])) =
    30 * time.Minute.
Proof.
  destruct (C7_reconcile_timeout envOk
              (argsReconcilers ++
               [("reconcile-timeout", pflag.VDuration (30 * time.Minute))]))
    as [_ [_ [_ [_ [Hm _]]]]].
  destruct (C7_reconcile_timeout envOk argsReconcilers) as [_ [_ [Hd _]]].
  split; [ apply Hm; [ reflexivity | vm_compute; discriminate ] | apply Hd ].
Defined.



(** ** The event broadcaster *)

(** C9. Every run, whatever its flags and whatever the calls answer,
    creates exactly one broadcaster, with correlator burst size 100; it is
    created before any manager construction, and the options of every
    manager construction carry that broadcaster. *)
Theorem C9_broadcaster_burst (env : Env) (args : pflag.Args) :
  broadcasterCalls (fst (main env args)) =
    [({| cgrecord.BurstSize := 100 |}, theBroadcaster)] /\
  cgrecord.BurstSize (cgrecord.Correlator theBroadcaster) = 100 /\
  Precedes isBroadcasterCreation isManagerConstruction (fst (main env args)) /\
  (forall cfg o mgr err,
     In (EvNewManager cfg o mgr err) (fst (main env args)) ->
     manager.EventBroadcaster o = theBroadcaster).
Proof.
  rewrite main_paths. generalize (flags args) as g. intros g.
  by_paths env g.
  all: split; [ reflexivity | ].
  all: split; [ reflexivity | ].
  all: split; [ apply precedes_sound; reflexivity | ].
  all: intros cfg o mgr err' H; in_cases H; injection H as _ <- _ _; reflexivity.
Qed.

(** The manager cannot be built, in reconciler mode: the broadcaster with
    burst size 100 was created all the same and handed to the failed
    construction. *)
Lemma C9_broadcaster_burst_witness :
  manager.EventBroadcaster (managerOptions (flags argsReconcilers)) =
    theBroadcaster.
Proof.
  destruct (C9_broadcaster_burst envNoManager argsReconcilers) as [_ [_ [_ H]]].
  apply (H "kubeconfig" (managerOptions (flags argsReconcilers)) None
           (Some "no kind is registered")).
  vm_compute. tauto.
Defined.

(** ** The lease *)

(** C10. Whatever the command line, every manager construction is given
    the lease name controller-leader-election-capg, with leader election
    on when leader-elect is set; the namespace of the lease is the one the
    leader-election-namespace flag gives. *)
Theorem C10_fixed_lease_name (env : Env) (args : pflag.Args) :
  (forall cfg o mgr err,
     In (EvNewManager cfg o mgr err) (fst (main env args)) ->
     manager.LeaderElectionID o = "controller-leader-election-capg" /\
     manager.LeaderElectionNamespace o = leaderElectionNamespace (flags args) /\
     (enableLeaderElection (flags args) = true -> manager.LeaderElection o = true)) /\
  (forall cfg,
     GetConfig env = Some cfg ->
     exists mgr err,
       In (EvNewManager cfg (managerOptions (flags args)) mgr err) (fst (main env args))) /\
  (forall ns,
     leaderElectionNamespace
       (flags (args ++ [("leader-election-namespace", pflag.VString ns)])) = ns).
Proof.
  split; [ | split ].
  3: { intros ns. rewrite flags_snoc. cbn. destruct (flags args). reflexivity. }
  all: rewrite main_paths; generalize (flags args) as g; intros g.
  all: by_paths env g.
  all: first
    [ intros cfg o mgr err' H; in_cases H; injection H as <- <- <- <-;
      repeat split; intros Hle; exact Hle
    | intros cfg Hc; first [ discriminate Hc | injection Hc as <- ];
      eexists; eexists; cbn [In]; tauto ].
Qed.

(** Leader election on, in the namespace capg-system: the lease name in
    the manager's options is the fixed one. *)
Lemma C10_fixed_lease_name_witness :
  exists mgr err,
    In (EvNewManager "kubeconfig" (managerOptions (flags argsLeaderElect)) mgr err)
       (fst (main envOk argsLeaderElect)) /\
    manager.LeaderElectionID (managerOptions (flags argsLeaderElect)) =
      "controller-leader-election-capg" /\
    manager.LeaderElectionNamespace (managerOptions (flags argsLeaderElect)) =
      "capg-system" /\
    manager.LeaderElection (managerOptions (flags argsLeaderElect)) = true.
Proof.
  destruct (C10_fixed_lease_name envOk argsLeaderElect) as [Hopts [Hcall _]].
  destruct (Hcall "kubeconfig" eq_refl) as [mgr [err Hin]].
  destruct (Hopts _ _ _ _ Hin) as [Hid [Hns Hle]].
  exists mgr, err.
  split; [exact Hin |].
  split; [exact Hid |].
  split; [exact Hns | exact (Hle eq_refl)].
Defined.

(** ** The flag set and the variables *)

Lemma Lookup_In (fs : pflag.FlagSet) (name : string) (f : pflag.Flag) :
  pflag.Lookup fs name = Some f -> In f fs /\ pflag.Name f = name.
Proof.
  induction fs as [| a fs IH]; simpl; intros H; [discriminate H |].
  destruct (String.eqb_spec (pflag.Name a) name) as [Hn | Hn].
  - injection H as <-. split; [left; reflexivity | exact Hn].
  - destruct (IH H) as [Hin Hname]. split; [right; exact Hin | exact Hname].
Qed.

(** Case analysis on a flag of the set: one case per flag [initFlags]
    registers. *)
Ltac flag_cases H :=
  unfold flagSet in H; cbv in H;
  repeat (destruct H as [H | H]; [symmetry in H | ]);
  [ .. | contradiction ].

Lemma flagSet_Lookup (f : pflag.Flag) :
  In f flagSet -> pflag.Lookup flagSet (pflag.Name f) = Some f.
Proof.
  intros H. flag_cases H; subst f; reflexivity.
Qed.

(** No two flags share a variable. *)
Lemma flagSet_targets (f f' : pflag.Flag) :
  In f flagSet -> In f' flagSet -> pflag.Target f = pflag.Target f' -> f = f'.
Proof.
  intros H H' E.
  flag_cases H; subst f; flag_cases H'; subst f';
    first [ reflexivity | discriminate E ].
Qed.

Lemma load_store_other (p q : Var) (v : pflag.Value) (g : Globals) :
  p <> q -> load q (pflag.store p v g) = load q g.
Proof.
  intros Hpq. destruct g, p, q, v; first [ reflexivity | congruence ].
Qed.

Lemma Parse_keeps (f : pflag.Flag) :
  In f flagSet ->
  forall (args : pflag.Args) (s : pflag.State),
    fst s = flagSet ->
    ~ In (pflag.Name f) (map fst args) ->
    load (pflag.Target f) (snd (pflag.Parse args s)) = load (pflag.Target f) (snd s).
Proof.
  intros Hf. induction args as [| [name v] rest IH]; intros s Hs Hn.
  - reflexivity.
  - simpl in Hn. simpl. rewrite Hs.
    destruct (pflag.Lookup flagSet name) as [f' |] eqn:HL.
    + rewrite IH; [ | reflexivity | tauto ].
      simpl. apply load_store_other.
      intros E. apply Lookup_In in HL as [Hin' Hname].
      assert (f' = f) by (apply flagSet_targets; assumption).
      apply Hn. left. congruence.
    + apply IH; [ exact Hs | tauto ].
Qed.

(** X1. A flag that does not occur on the command line leaves its variable
    at the default [initFlags] registered it with, whatever else the
    command line holds. *)
Theorem flag_absent_keeps_default (args : pflag.Args) (f : pflag.Flag) :
  In f flagSet ->
  ~ In (pflag.Name f) (map fst args) ->
  load (pflag.Target f) (flags args) = pflag.DefValue f.
Proof.
  intros Hf Hn. unfold flags.
  rewrite (Parse_keeps Hf); [ | reflexivity | exact Hn ].
  flag_cases Hf; subst f; reflexivity.
Qed.

(** Leader election and a lease namespace are given, the webhook port is
    not: it stays 9443. *)
Lemma flag_absent_keeps_default_witness :
  load p_webhookPort (flags argsLeaderElect) = pflag.VInt 9443.
Proof.
  apply (@flag_absent_keeps_default argsLeaderElect webhookPortFlag).
  - unfold flagSet. vm_compute. tauto.
  - vm_compute. intros [H | [H | H]]; [ discriminate H | discriminate H | exact H ].
Defined.

(** X2. A flag given last on the command line, with a value of its kind,
    sets its variable to that value and leaves every other variable as the
    rest of the command line made it. *)
Theorem flag_given_last_wins (args : pflag.Args) (f : pflag.Flag) (v : pflag.Value) :
  In f flagSet ->
  sameKind v (pflag.DefValue f) = true ->
  load (pflag.Target f) (flags (args ++ [(pflag.Name f, v)])) = v /\
  (forall q, q <> pflag.Target f ->
     load q (flags (args ++ [(pflag.Name f, v)])) = load q (flags args)).
Proof.
  intros Hf Hk. rewrite flags_snoc, (flagSet_Lookup Hf). split.
  - destruct (flags args).
    flag_cases Hf; subst f; destruct v;
      first [ discriminate Hk | reflexivity ].
  - intros q Hq. apply load_store_other. congruence.
Qed.

(** [--webhook-port=0] after the leader election flags: the port is 0 and
    leader election is still on. *)
Lemma flag_given_last_wins_witness :
  load p_webhookPort (flags (argsLeaderElect ++ [("webhook-port", pflag.VInt 0)])) =
    pflag.VInt 0 /\
  load p_enableLeaderElection
    (flags (argsLeaderElect ++ [("webhook-port", pflag.VInt 0)])) =
    pflag.VBool true.
Proof.
  assert (In webhookPortFlag flagSet) as Hin by (unfold flagSet; vm_compute; tauto).
  destruct (@flag_given_last_wins argsLeaderElect webhookPortFlag (pflag.VInt 0)
              Hin eq_refl) as [H1 H2].
  split; [ exact H1 | ].
  exact (eq_trans (H2 p_enableLeaderElection ltac:(discriminate)) eq_refl).
Defined.

(** X3. Every assignment of the fifteen variables is the result of some
    command line: each variable has a flag, and together the flags reach
    every configuration. *)
Theorem every_configuration_has_a_command_line (g : Globals) :
  exists args, flags args = g.
Proof.
  destruct g as [le ma len wn pa ha wf cc mc wp rt sp ld rd rp].
  exists [("leader-elect", pflag.VBool le);
          ("metrics-addr", pflag.VString ma);
          ("leader-election-namespace", pflag.VString len);
          ("namespace", pflag.VString wn);
          ("profiler-address", pflag.VString pa);
          ("health-addr", pflag.VString ha);
          ("watch-filter", pflag.VString wf);
          ("gcpcluster-concurrency", pflag.VInt cc);
          ("gcpmachine-concurrency", pflag.VInt mc);
          ("webhook-port", pflag.VInt wp);
          ("reconcile-timeout", pflag.VDuration rt);
          ("sync-period", pflag.VDuration sp);
          ("leader-elect-lease-duration", pflag.VDuration ld);
          ("leader-elect-renew-deadline", pflag.VDuration rd);
          ("leader-elect-retry-period", pflag.VDuration rp)].
  reflexivity.
Qed.

(** ** Exit status and error log *)





(** ** One manager *)

(** X6. A run builds at most one manager, and every registration, health
    check, the event recorder and [Start] are on that one; each reconciler
    holds the client of the manager it is registered with and logs under
    controllers and its kind; the recorder is the one for gcp-controller. *)
Theorem one_manager_everywhere (env : Env) (args : pflag.Args) :
  (managers (fst (main env args)) <= 1)%nat /\
  (forall e m,
     In e (fst (main env args)) -> managerOf e = Some m ->
     m = theManager (flags args)) /\
  (forall r ctx mgr o err,
     In (EvSetupWithManager r ctx mgr o err) (fst (main env args)) ->
     controllers.Client r = manager.GetClient mgr /\
     controllers.Log r = ["controllers"; kindName (controllers.Type_ r)]) /\
  (forall r,
     In (EvInitFromRecorder r) (fst (main env args)) ->
     r = manager.GetEventRecorderFor (theManager (flags args)) "gcp-controller").
Proof.
  rewrite main_paths. generalize (flags args) as g. intros g.
  by_paths env g.
  all: split;
    [ cbn; auto
    | split;
      [ intros e' m' H' Hm'; in_cases H'; subst e';
        first [ discriminate Hm' | injection Hm' as <- ]; reflexivity
      | split;
        [ intros r' ctx' mgr' o' err' H'; in_cases H';
          injection H' as <- _ <- _ _; split; reflexivity
        | intros r' H'; in_cases H'; injection H' as <-; reflexivity ] ] ].
Qed.

(** Reconciler mode with every call succeeding: the GCPMachine reconciler
    holds the client of the manager built from the flags. *)
Lemma one_manager_everywhere_witness :
  controllers.Client (machineReconciler (flags argsReconcilers)) =
    manager.GetClient (theManager (flags argsReconcilers)).
Proof.
  destruct (one_manager_everywhere envOk argsReconcilers) as [_ [_ [H _]]].
  apply (H (machineReconciler (flags argsReconcilers)) theContext
           (theManager (flags argsReconcilers))
           {| controller.MaxConcurrentReconciles := 10 |} None).
  vm_compute. tauto.
Defined.

(** ** What the manager is built with *)

(** X7. Every manager construction is given the configuration
    [GetConfigOrDie] loaded and, unchanged, the metrics address, the watch
    namespace, the webhook port, the health address and the sync period of
    the flag variables, with the scheme of the four API groups [init]
    added. *)
Theorem manager_options_follow_flags (env : Env) (args : pflag.Args) :
  forall cfg o mgr err,
    In (EvNewManager cfg o mgr err) (fst (main env args)) ->
    GetConfig env = Some cfg /\
    manager.MetricsBindAddress o = metricsAddr (flags args) /\
    manager.Namespace o = watchNamespace (flags args) /\
    manager.Port o = webhookPort (flags args) /\
    manager.HealthProbeBindAddress o = healthAddr (flags args) /\
    manager.SyncPeriod o = Some (syncPeriod (flags args)) /\
    manager.Scheme o =
      ["clientgoscheme"; "infrav1alpha3"; "infrav1alpha4"; "clusterv1"].
Proof.
  rewrite main_paths. generalize (flags args) as g. intros g.
  by_paths env g.
  all: intros cfg' o' mgr' err' H'; in_cases H'; injection H' as <- <- _ _;
       repeat split.
Qed.

(** The profiler command line, the manager failing to build: the failed
    construction was given the namespace capg-system. *)
Lemma manager_options_follow_flags_witness :
  manager.Namespace (managerOptions (flags argsProfiler)) =
    watchNamespace (flags argsProfiler).
Proof.
  destruct (@manager_options_follow_flags envNoManager argsProfiler
              "kubeconfig" (managerOptions (flags argsProfiler)) None
              (Some "no kind is registered")) as [_ [_ [H _]]].
  - vm_compute. tauto.
  - exact H.
Defined.

(** X8. The port that selects the mode is the port the manager is built
    with: a reconciler is only ever registered with a manager whose port is
    0, and a webhook only with a manager whose port is not 0. *)
Theorem mode_matches_manager_port (env : Env) (args : pflag.Args) :
  (forall r ctx mgr o err,
     In (EvSetupWithManager r ctx mgr o err) (fst (main env args)) ->
     exists m, mgr = Some m /\ manager.Port (manager.Opts m) = 0) /\
  (forall obj mgr err,
     In (EvSetupWebhookWithManager obj mgr err) (fst (main env args)) ->
     exists m, mgr = Some m /\ manager.Port (manager.Opts m) <> 0).
Proof.
  rewrite main_paths. generalize (flags args) as g. intros g.
  by_paths env g.
  all: split;
    [ intros r' ctx' mgr' o' err' H'; in_cases H'; injection H' as _ _ <- _ _;
      (eexists; split; [ reflexivity | assumption ])
    | intros obj' mgr' err' H'; in_cases H'; injection H' as _ <- _;
      (eexists; split; [ reflexivity | assumption ]) ].
Qed.

(** The default run with every call succeeding: the GCPMachine webhook is
    registered with a manager whose port is not 0. *)
Lemma mode_matches_manager_port_witness :
  exists m, theManager (flags []) = Some m /\ manager.Port (manager.Opts m) <> 0.
Proof.
  destruct (mode_matches_manager_port envOk []) as [_ H].
  apply (H infrav1alpha4.GCPMachine (theManager (flags [])) None).
  vm_compute. tauto.
Defined.

(** X9. A command line without the flag webhook-port runs in webhook mode,
    whatever else it holds and whatever the calls answer: the manager is
    built with port 9443 and no reconciler is set up. *)
Theorem no_reconcilers_without_webhook_port_flag (env : Env) (args : pflag.Args) :
  ~ In "webhook-port" (map fst args) ->
  webhookPort (flags args) = 9443 /\
  reconcilersSetUp (fst (main env args)) = [] /\
  (forall cfg o mgr err,
     In (EvNewManager cfg o mgr err) (fst (main env args)) ->
     manager.Port o = 9443).
Proof.
  intros Hn.
  assert (webhookPort (flags args) = 9443) as Hp.
  { assert (In webhookPortFlag flagSet) as Hin
        by (unfold flagSet; vm_compute; tauto).
    pose proof (Parse_keeps Hin args
                  (initFlags (pflag.CommandLine, zeroGlobals)) eq_refl Hn) as H.
    fold (flags args) in H. cbn [webhookPortFlag pflag.Target load] in H.
    injection H as H. exact H. }
  split; [ exact Hp | ].
  revert Hp. rewrite main_paths. generalize (flags args) as g. intros g.
  by_paths env g.
  all: intros Hp; try congruence.
  all: split;
    [ reflexivity
    | intros cfg' o' mgr' err' H'; in_cases H'; injection H' as _ <- _ _;
      exact Hp ].
Qed.

(** The leader election command line names no webhook port: no reconciler,
    with every call succeeding. *)
Lemma no_reconcilers_without_webhook_port_flag_witness :
  reconcilersSetUp (fst (main envOk argsLeaderElect)) = [].
Proof.
  destruct (@no_reconcilers_without_webhook_port_flag envOk argsLeaderElect)
    as [_ [H _]].
  - vm_compute. intros [H | [H | H]]; [ discriminate H | discriminate H | exact H ].
  - exact H.
Defined.

(** ** The profiler and the namespace notice *)

(** Case analysis over the paths as [by_paths] does it, keeping what the
    two address tests found. *)
Ltac by_paths_prelude env g :=
  let t := fresh "t" in
  let out := fresh "out" in
  let E := fresh "E" in
  destruct (paths env g) as [t out] eqn:E;
  cbn [fst snd];
  revert E;
  unfold paths, pathReconcilers, pathWebhooks, pathHealth, pathStart, exit1, prelude;
  destruct (String.eqb_spec (watchNamespace g) EmptyString);
  destruct (String.eqb_spec (profilerAddress g) EmptyString);
  cbn [negb];
  destruct (GetConfig env) eqn:?;
  destruct (webhookPort g =? 0) eqn:?;
  repeat path_step;
  cbn [app];
  intros E; injection E as <- <-.

(** X10. The profiler goroutine is started exactly when the profiler
    address is not empty, once, on that address, and announced in the log;
    with an empty address, and so on any command line without the flag
    profiler-address, it is never started.  The notice about the watched
    namespace is logged exactly when the namespace is not empty.  None of
    this depends on what the calls answer. *)
Theorem profiler_only_on_request (env : Env) (args : pflag.Args) :
  (profilerAddress (flags args) = EmptyString ->
   profilerStarts (fst (main env args)) = []) /\
  (profilerAddress (flags args) <> EmptyString ->
   profilerStarts (fst (main env args)) = [profilerAddress (flags args)] /\
   In ("Profiler listening for requests",
       ["profiler-address"; profilerAddress (flags args)])
      (infosLogged (fst (main env args)))) /\
  (~ In "profiler-address" (map fst args) ->
   profilerStarts (fst (main env args)) = []) /\
  (In ("Watching cluster-api objects only in namespace for reconciliation",
       ["namespace"; watchNamespace (flags args)])
      (infosLogged (fst (main env args))) <->
   watchNamespace (flags args) <> EmptyString).
Proof.
  assert (~ In "profiler-address" (map fst args) ->
          profilerAddress (flags args) = EmptyString) as Habsent.
  { intros Hn.
    assert (In profilerAddressFlag flagSet) as Hin
        by (unfold flagSet; vm_compute; tauto).
    pose proof (Parse_keeps Hin args
                  (initFlags (pflag.CommandLine, zeroGlobals)) eq_refl Hn) as H.
    fold (flags args) in H. cbn [profilerAddressFlag pflag.Target load] in H.
    injection H as H. exact H. }
  revert Habsent. rewrite main_paths. generalize (flags args) as g. intros g.
  by_paths_prelude env g.
  all: intros Habsent.
  all: split;
    [ intros Hp; first [ reflexivity | contradiction ]
    | split;
      [ intros Hp; first [ contradiction | split; [ reflexivity | cbn; tauto ] ]
      | split;
        [ intros Hn; first [ reflexivity | exfalso; auto ]
        | split;
          [ intros Hw; first [ assumption | exfalso; cbn in Hw; in_cases Hw ]
          | intros Hw; first [ contradiction | cbn; tauto ] ] ] ] ].
Qed.

(** The profiler command line with the configuration failing to load: the
    profiler was started on localhost:6060 all the same. *)
Lemma profiler_only_on_request_witness :
  profilerStarts (fst (main envNoConfig argsProfiler)) = ["localhost:6060"].
Proof.
  destruct (profiler_only_on_request envNoConfig argsProfiler) as [_ [H _]].
  apply H. vm_compute. discriminate.
Defined.

(** ** The startup sequence *)

(** X11. The calls of every run, log entries aside, follow the one startup
    sequence, each at most once: profiler, logger, broadcaster,
    configuration, manager, event recorder, signal handler, the mode's
    first and second registration, readiness check, liveness check, start.
    A run may stop short, but it never repeats or reorders a step. *)
Theorem calls_follow_startup_sequence (env : Env) (args : pflag.Args) :
  StronglySorted lt (map stage (calls (fst (main env args)))).
Proof.
  rewrite main_paths. generalize (flags args) as g. intros g.
  by_paths env g.
  all: cbv [calls filter isCall map stage controllers.Type_ machineReconciler
            clusterReconciler].
  all: repeat constructor.
Qed.

(** ** Order on the command line *)

Lemma store_commutes (p q : Var) (v w : pflag.Value) (g : Globals) :
  p <> q ->
  pflag.store p v (pflag.store q w g) = pflag.store q w (pflag.store p v g).
Proof.
  intros Hpq. destruct g, p, q; try congruence; destruct v, w; reflexivity.
Qed.

(** X12. Two occurrences of different flags can be given in either order:
    no two flags of [initFlags] write the same variable. *)
Theorem different_flags_commute (args : pflag.Args) (n1 n2 : string)
    (v1 v2 : pflag.Value) :
  n1 <> n2 ->
  flags (args ++ [(n1, v1); (n2, v2)]) = flags (args ++ [(n2, v2); (n1, v1)]).
Proof.
  intros Hn.
  change (args ++ [(n1, v1); (n2, v2)]) with (args ++ [(n1, v1)] ++ [(n2, v2)]).
  change (args ++ [(n2, v2); (n1, v1)]) with (args ++ [(n2, v2)] ++ [(n1, v1)]).
  rewrite !app_assoc, !flags_snoc.
  destruct (pflag.Lookup flagSet n1) as [f1 |] eqn:H1;
    destruct (pflag.Lookup flagSet n2) as [f2 |] eqn:H2;
    try reflexivity.
  apply store_commutes. intros E.
  apply Lookup_In in H1 as [Hin1 Hname1].
  apply Lookup_In in H2 as [Hin2 Hname2].
  assert (f2 = f1) by (apply flagSet_targets; assumption).
  subst f2. congruence.
Qed.

(** The namespace and the webhook port, in the two orders. *)
Lemma different_flags_commute_witness :
  flags [("namespace", pflag.VString "capg-system");
         ("webhook-port", pflag.VInt 0)] =
  flags [("webhook-port", pflag.VInt 0);
         ("namespace", pflag.VString "capg-system")].
Proof.
  apply (@different_flags_commute [] "namespace" "webhook-port").
  discriminate.
Defined.

(** ** Health checks come last *)

(** X13. A readiness check is only added once both registrations of the
    selected mode have returned nil, and a liveness check only once the
    readiness check is registered: no run exposes a health check for a
    manager whose reconcilers or webhooks are not all in place. *)
Theorem health_checks_after_registrations (env : Env) (args : pflag.Args) :
  (forall mgr name check err,
     In (EvAddReadyzCheck mgr name check err) (fst (main env args)) ->
     reconcilersRegistered (fst (main env args)) =
       [controllers.GCPMachineReconciler; controllers.GCPClusterReconciler] \/
     webhooksRegistered (fst (main env args)) =
       [infrav1alpha4.GCPMachineTemplate; infrav1alpha4.GCPMachine]) /\
  (forall mgr name check err,
     In (EvAddHealthzCheck mgr name check err) (fst (main env args)) ->
     readyzChecks (fst (main env args)) = [("ping", healthz.Ping)]).
Proof.
  rewrite main_paths. generalize (flags args) as g. intros g.
  by_paths env g.
  all: split;
    [ intros mgr' name' check' err' H'; in_cases H';
      first [ left; reflexivity | right; reflexivity ]
    | intros mgr' name' check' err' H'; in_cases H'; reflexivity ].
Qed.

(** Reconciler mode with every call succeeding: the readiness check is
    there, and so are both reconcilers. *)
Lemma health_checks_after_registrations_witness :
  reconcilersRegistered (fst (main envOk argsReconcilers)) =
    [controllers.GCPMachineReconciler; controllers.GCPClusterReconciler] \/
  webhooksRegistered (fst (main envOk argsReconcilers)) =
    [infrav1alpha4.GCPMachineTemplate; infrav1alpha4.GCPMachine].
Proof.
  destruct (health_checks_after_registrations envOk argsReconcilers) as [H _].
  apply (H (theManager (flags argsReconcilers)) "ping" healthz.Ping None).
  vm_compute. tauto.
Defined.
